(** * GarudaNetra attendance tracker: the entity store, the attendance
      routes and the report builder, embedded from [server/storage.ts],
      [server/routes.ts] and [shared/schema.ts]. *)

From Stdlib Require Import ZArith Arith List String Ascii Bool Lia QArith.
From Stdlib Require Import Permutation Sorted.
From Stdlib Require OrderedTypeEx.
From Stdlib Require Import Floats.SpecFloat.
Import ListNotations.

Local Open Scope string_scope.
Local Open Scope Z_scope.

Set Implicit Arguments.

(* ================================================================== *)
(** ** JavaScript numbers

    A JS [number] is an IEEE-754 binary64 value.  [spec_float] with
    precision 53 and maximal exponent 1024 is that format, with
    round-to-nearest-even arithmetic. *)

Module Num.

Definition prec : Z := 53.
Definition emax : Z := 1024.

Definition t := spec_float.

(** The number denoted by an integer literal or by an array length. *)
Definition of_Z (z : Z) : t := binary_normalize prec emax z 0 false.

Definition div : t -> t -> t := SFdiv prec emax.
Definition mul : t -> t -> t := SFmul prec emax.
Definition ltb : t -> t -> bool := SFltb.
Definition leb : t -> t -> bool := SFleb.

(** [Math.round]: the closest integer, ties towards +infinity; zeros,
    infinities and NaN are returned as they are, and a negative argument
    that rounds to zero gives -0. *)
Definition round (x : t) : t :=
  match x with
  | S754_finite s m e =>
      if 0 <=? e then x
      else
        let sm := if s then Z.neg m else Z.pos m in
        let n := (2 * sm + 2 ^ (- e)) / 2 ^ (- e + 1) in
        if (n =? 0) && s then S754_zero true else of_Z n
  | _ => x
  end.

(** The exact rational value of a finite number. *)
Definition to_Q (x : t) : option Q :=
  match x with
  | S754_zero _ => Some 0%Q
  | S754_finite s m e =>
      let sm := if s then Z.neg m else Z.pos m in
      Some (if 0 <=? e then inject_Z (sm * 2 ^ e)
            else Qmake sm (Z.to_pos (2 ^ (- e))))
  | _ => None
  end.

(** [lo < x < hi] for a finite [x], decided on exact rationals. *)
Definition strictly_between (lo hi : Q) (x : t) : bool :=
  match to_Q x with
  | Some q =>
      match Qcompare lo q, Qcompare q hi with
      | Lt, Lt => true
      | _, _ => false
      end
  | None => false
  end.

End Num.

(* ================================================================== *)
(** ** JavaScript strings

    Strings are sequences of code units; [===] is [String.eqb] and the
    relational operators [<=], [>=] compare code units lexicographically,
    which is [String.leb]. *)

Definition str_le (a b : string) : bool := String.leb a b.
Definition str_ge (a b : string) : bool := String.leb b a.

(** A string is truthy when it is neither [undefined]/[null] nor empty. *)
Definition truthy (s : option string) : bool :=
  match s with
  | Some s => negb (s =? "")%string
  | None => false
  end.

(** [x || null] on an optional string. *)
Definition or_null (s : option string) : option string :=
  if truthy s then s else None.

(* ================================================================== *)
(** ** JavaScript [Map] with string keys

    A [Map] iterates in insertion order; [set] on a key already present
    replaces the value where it stands, [delete] reports whether the key
    was there. *)

Module JsMap.

Definition t (V : Type) := list (string * V).

Definition empty {V} : t V := [].

Fixpoint get {V} (m : t V) (k : string) : option V :=
  match m with
  | [] => None
  | (k', v) :: m' => if (k' =? k)%string then Some v else get m' k
  end.

Definition has {V} (m : t V) (k : string) : bool :=
  match get m k with Some _ => true | None => false end.

Fixpoint set {V} (m : t V) (k : string) (v : V) : t V :=
  match m with
  | [] => [(k, v)]
  | (k', v') :: m' =>
      if (k' =? k)%string then (k', v) :: m' else (k', v') :: set m' k v
  end.

Fixpoint remove {V} (m : t V) (k : string) : t V :=
  match m with
  | [] => []
  | (k', v') :: m' =>
      if (k' =? k)%string then m' else (k', v') :: remove m' k
  end.

(** [Map.prototype.delete]. *)
Definition delete {V} (m : t V) (k : string) : bool * t V :=
  (has m k, remove m k).

Definition keys {V} (m : t V) : list string := map fst m.

(** [Array.from(m.values())]. *)
Definition values {V} (m : t V) : list V := map snd m.

End JsMap.

(* ================================================================== *)
(** ** [Array.prototype] helpers *)

(** [Array.prototype.find]. *)
Definition Array_find {A} (p : A -> bool) (l : list A) : option A := find p l.

(** [arr.filter(p).length] as a number of elements. *)
Definition count {A} (p : A -> bool) (l : list A) : Z :=
  Z.of_nat (List.length (filter p l)).

Section ArraySort.

Variable A : Type.
(** The comparator: negative when the first argument sorts first. *)
Variable cmp : A -> A -> Z.

(** Insertion of [x] in front of the first element it does not follow. *)
Fixpoint sort_insert (x : A) (l : list A) : list A :=
  match l with
  | [] => [x]
  | y :: l' =>
      if cmp x y <=? 0 then x :: y :: l' else y :: sort_insert x l'
  end.

(** [Array.prototype.sort(cmp)]: a stable sort (ECMAScript 2019).  With a
    consistent comparator the result of a stable sort is unique, so the
    algorithm chosen here, insertion from the right, stands for any. *)
Fixpoint Array_sort (l : list A) : list A :=
  match l with
  | [] => []
  | x :: l' => sort_insert x (Array_sort l')
  end.

(** [a] may stand before [b]; [a] and [b] tie. *)
Definition precedes (a b : A) : Prop := cmp a b <= 0.
Definition tie (a b : A) : bool := cmp a b =? 0.

End ArraySort.

(* ================================================================== *)
(** ** Host functions

    What the handlers take from the JavaScript runtime and from libraries
    outside the repository. *)

(** A [Date] object, known by its epoch milliseconds and by the text
    [toISOString()] gives for it. *)
Record Date := { getTime : Z; toISOString : string }.

(** [s.split('T')[0]]: the part of [s] before the first 'T'. *)
Fixpoint split_T_0 (s : string) : string :=
  match s with
  | EmptyString => EmptyString
  | String c s' => if (c =? "T")%char then EmptyString else String c (split_T_0 s')
  end.

(** What one request draws from the environment: the value of its
    [randomUUID()] call and the [new Date()] it reads. *)
Record Env := { uuid : string; now : Date }.

Class Platform := {
  (** [String.prototype.localeCompare] with the default collation of the host. *)
  localeCompare : string -> string -> Z;
  (** [JSON.parse(qrData).studentId]: [None] when this throws, [Some None]
      when the property is not a string, [Some (Some id)] otherwise. *)
  JSON_parse_studentId : string -> option (option string)
}.

(** The laws of a consistent comparator: exchanging the arguments flips the
    sign, and the order is transitive. *)
Record consistent_comparator (cmp : string -> string -> Z) : Prop := {
  cmp_antisym : forall a b, Z.sgn (cmp b a) = - Z.sgn (cmp a b);
  cmp_trans : forall a b c, cmp a b <= 0 -> cmp b c <= 0 -> cmp a c <= 0
}.

(* ================================================================== *)
(** ** shared/schema.ts *)

Module User.
Record t := {
  id : string;
  username : string;
  password : string;
  role : string;
  name : string;
  email : option string;
  createdAt : option Date
}.
End User.

Module Student.
Record t := {
  id : string;
  admissionNo : string;
  name : string;
  className : string;
  section : string;
  rollNo : string;
  email : option string;
  contactNo : option string;
  parentContact : option string;
  photoUrl : option string;
  qrCode : option string;
  faceDescriptor : option string;
  createdAt : option Date
}.
End Student.

(** [insertStudentSchema]: a student without [id], [createdAt], [qrCode]. *)
Module InsertStudent.
Record t := {
  admissionNo : string;
  name : string;
  className : string;
  section : string;
  rollNo : string;
  email : option string;
  contactNo : option string;
  parentContact : option string;
  photoUrl : option string;
  faceDescriptor : option string
}.
End InsertStudent.

(** [Partial<InsertStudent>]: [None] is a field left out; for a nullable
    field [Some None] is an explicit [null]. *)
Module StudentUpdates.
Record t := {
  admissionNo : option string;
  name : option string;
  className : option string;
  section : option string;
  rollNo : option string;
  email : option (option string);
  contactNo : option (option string);
  parentContact : option (option string);
  photoUrl : option (option string);
  faceDescriptor : option (option string)
}.
End StudentUpdates.

Module Attendance.
Record t := {
  id : string;
  studentId : string;
  date : string;        (* YYYY-MM-DD format *)
  status : string;      (* 'present' | 'absent' | 'late' *)
  method : option string; (* 'qr' | 'face' | 'manual' *)
  timestamp : option Date;
  markedBy : option string
}.
End Attendance.

(** [insertAttendanceSchema]: an attendance without [id], [timestamp]. *)
Module InsertAttendance.
Record t := {
  studentId : string;
  date : string;
  status : string;
  method : option string;
  markedBy : option string
}.
End InsertAttendance.

Module Klass.
Record t := {
  id : string;
  name : string;
  section : string;
  teacherId : option string;
  createdAt : option Date
}.
End Klass.

(** A request body as the schemas see it: every property either missing or
    a string, except the confidence, a number. *)
Module AttendanceBody.
Record t := {
  studentId : option string;
  date : option string;
  status : option string;
  method : option string;
  markedBy : option string
}.
End AttendanceBody.

Definition insertAttendanceSchema_parse (b : AttendanceBody.t)
  : option InsertAttendance.t :=
  match AttendanceBody.studentId b, AttendanceBody.date b, AttendanceBody.status b with
  | Some sid, Some d, Some s =>
      Some {| InsertAttendance.studentId := sid;
              InsertAttendance.date := d;
              InsertAttendance.status := s;
              InsertAttendance.method := AttendanceBody.method b;
              InsertAttendance.markedBy := AttendanceBody.markedBy b |}
  | _, _, _ => None
  end.

Module FaceBody.
Record t := {
  studentId : option string;
  imageData : option string;
  confidence : option Num.t
}.
End FaceBody.

(** [z.number().min(0).max(100)]; NaN fails both bounds. *)
Definition confidence_in_schema (c : Num.t) : bool :=
  Num.leb (Num.of_Z 0) c && Num.leb c (Num.of_Z 100).

(** [faceRecognitionSchema] *)
Definition faceRecognitionSchema_parse (b : FaceBody.t)
  : option (string * string * Num.t) :=
  match FaceBody.studentId b, FaceBody.imageData b, FaceBody.confidence b with
  | Some sid, Some img, Some c =>
      if confidence_in_schema c then Some (sid, img, c) else None
  | _, _, _ => None
  end.

Module QrBody.
Record t := { qrData : option string; method : option string }.
End QrBody.

(** [qrAttendanceSchema]: [method: z.literal("qr")]. *)
Definition qrAttendanceSchema_parse (b : QrBody.t) : option string :=
  match QrBody.qrData b, QrBody.method b with
  | Some d, Some m => if (m =? "qr")%string then Some d else None
  | _, _ => None
  end.

Module ReportBody.
Record t := {
  type : option string;
  dateRange : option (string * string);
  className : option string;
  format : option string
}.
End ReportBody.

Definition one_of (l : list string) (s : string) : bool :=
  existsb (String.eqb s) l.

(** [reportGenerationSchema]: [type] and [format] are enums, [format] is
    not optional. *)
Definition reportGenerationSchema_parse (b : ReportBody.t)
  : option (string * (string * string) * option string * string) :=
  match ReportBody.type b, ReportBody.dateRange b, ReportBody.format b with
  | Some ty, Some range, Some fmt =>
      if one_of ["daily"; "weekly"; "monthly"; "custom"] ty
         && one_of ["excel"; "csv"; "pdf"] fmt
      then Some (ty, range, ReportBody.className b, fmt) else None
  | _, _, _ => None
  end.

(* ================================================================== *)
(** ** server/storage.ts: [MemStorage] *)

Record MemStorage := {
  users : JsMap.t User.t;
  students : JsMap.t Student.t;
  attendance : JsMap.t Attendance.t;
  classes : JsMap.t Klass.t
}.

Definition with_students (st : MemStorage) (m : JsMap.t Student.t) : MemStorage :=
  {| users := users st; students := m;
     attendance := attendance st; classes := classes st |}.

Definition with_attendance (st : MemStorage) (m : JsMap.t Attendance.t) : MemStorage :=
  {| users := users st; students := students st;
     attendance := m; classes := classes st |}.

(** The eight [randomUUID()] values drawn by [initializeDefaultData]. *)
Record SeedIds := {
  admin_id : string; teacher_id : string; class_id : string;
  student1_id : string; student2_id : string; student3_id : string;
  attendance1_id : string; attendance2_id : string
}.

Record StudentFilters := {
  filter_className : option string;
  filter_section : option string
}.

Record Stats := {
  totalStudents : Z;
  present : Z;
  absent : Z;
  late : Z;
  attendanceRate : Num.t
}.

Section Storage.

Context {P : Platform}.

Definition sampleStudents (ids : SeedIds) (d : Date) : list Student.t :=
  [ {| Student.id := student1_id ids; Student.admissionNo := "APS001";
       Student.name := "Aarav Sharma"; Student.className := "12";
       Student.section := "A"; Student.rollNo := "01";
       Student.email := Some "aarav.sharma@student.aps.edu";
       Student.contactNo := Some "9876543210";
       Student.parentContact := Some "9876543211";
       Student.photoUrl := None; Student.qrCode := Some "QR_APS001";
       Student.faceDescriptor := None; Student.createdAt := Some d |};
    {| Student.id := student2_id ids; Student.admissionNo := "APS002";
       Student.name := "Priya Patel"; Student.className := "12";
       Student.section := "A"; Student.rollNo := "02";
       Student.email := Some "priya.patel@student.aps.edu";
       Student.contactNo := Some "9876543212";
       Student.parentContact := Some "9876543213";
       Student.photoUrl := None; Student.qrCode := Some "QR_APS002";
       Student.faceDescriptor := None; Student.createdAt := Some d |};
    {| Student.id := student3_id ids; Student.admissionNo := "APS003";
       Student.name := "Rahul Kumar"; Student.className := "12";
       Student.section := "B"; Student.rollNo := "01";
       Student.email := Some "rahul.kumar@student.aps.edu";
       Student.contactNo := Some "9876543214";
       Student.parentContact := Some "9876543215";
       Student.photoUrl := None; Student.qrCode := Some "QR_APS003";
       Student.faceDescriptor := None; Student.createdAt := Some d |} ].

(** The store the constructor builds.  All [new Date()] of the one
    synchronous call read the same clock value [d]. *)
Definition initializeDefaultData (ids : SeedIds) (d : Date) : MemStorage :=
  let adminUser :=
    {| User.id := admin_id ids; User.username := "admin";
       User.password := "admin123"; User.role := "admin";
       User.name := "System Administrator";
       User.email := Some "admin@aps.edu"; User.createdAt := Some d |} in
  let users := JsMap.set JsMap.empty (User.id adminUser) adminUser in
  let teacherUser :=
    {| User.id := teacher_id ids; User.username := "teacher";
       User.password := "teacher123"; User.role := "teacher";
       User.name := "John Teacher";
       User.email := Some "teacher@aps.edu"; User.createdAt := Some d |} in
  let users := JsMap.set users (User.id teacherUser) teacherUser in
  let class12A :=
    {| Klass.id := class_id ids; Klass.name := "12"; Klass.section := "A";
       Klass.teacherId := Some (User.id teacherUser);
       Klass.createdAt := Some d |} in
  let classes := JsMap.set JsMap.empty (Klass.id class12A) class12A in
  let students :=
    fold_left (fun m student => JsMap.set m (Student.id student) student)
              (sampleStudents ids d) JsMap.empty in
  let today := split_T_0 (toISOString d) in
  let attendance :=
    fold_left
      (fun m ids_student =>
         let attendanceRecord :=
           {| Attendance.id := fst ids_student;
              Attendance.studentId := Student.id (snd ids_student);
              Attendance.date := today;
              Attendance.status := "present";
              Attendance.method := Some "manual";
              Attendance.timestamp := Some d;
              Attendance.markedBy := Some (User.id teacherUser) |} in
         JsMap.set m (Attendance.id attendanceRecord) attendanceRecord)
      (combine [attendance1_id ids; attendance2_id ids]
               (firstn 2 (sampleStudents ids d)))
      JsMap.empty in
  {| users := users; students := students;
     attendance := attendance; classes := classes |}.

(** *** Student methods *)

Definition getStudent (st : MemStorage) (id : string) : option Student.t :=
  JsMap.get (students st) id.

Definition getStudentByAdmissionNo (st : MemStorage) (admissionNo : string)
  : option Student.t :=
  Array_find (fun student => (Student.admissionNo student =? admissionNo)%string)
             (JsMap.values (students st)).

Definition by_name (a b : Student.t) : Z :=
  localeCompare (Student.name a) (Student.name b).

Definition getStudents (st : MemStorage) (filters : option StudentFilters)
  : list Student.t :=
  let students := JsMap.values (students st) in
  let students :=
    match filters with
    | Some {| filter_className := Some c |} =>
        if truthy (Some c)
        then filter (fun s => (Student.className s =? c)%string) students
        else students
    | _ => students
    end in
  let students :=
    match filters with
    | Some {| filter_section := Some sec |} =>
        if truthy (Some sec)
        then filter (fun s => (Student.section s =? sec)%string) students
        else students
    | _ => students
    end in
  Array_sort by_name students.

Definition createStudent (env : Env) (insertStudent : InsertStudent.t)
           (st : MemStorage) : Student.t * MemStorage :=
  let student :=
    {| Student.id := uuid env;
       Student.admissionNo := InsertStudent.admissionNo insertStudent;
       Student.name := InsertStudent.name insertStudent;
       Student.className := InsertStudent.className insertStudent;
       Student.section := InsertStudent.section insertStudent;
       Student.rollNo := InsertStudent.rollNo insertStudent;
       Student.email := or_null (InsertStudent.email insertStudent);
       Student.contactNo := or_null (InsertStudent.contactNo insertStudent);
       Student.parentContact := or_null (InsertStudent.parentContact insertStudent);
       Student.photoUrl := InsertStudent.photoUrl insertStudent;
       Student.qrCode := Some ("QR_" ++ InsertStudent.admissionNo insertStudent);
       Student.faceDescriptor := InsertStudent.faceDescriptor insertStudent;
       Student.createdAt := Some (now env) |} in
  (student, with_students st (JsMap.set (students st) (Student.id student) student)).

Definition spread {A} (old : A) (upd : option A) : A :=
  match upd with Some v => v | None => old end.

Definition updateStudent (id : string) (updates : StudentUpdates.t)
           (st : MemStorage) : option Student.t * MemStorage :=
  match JsMap.get (students st) id with
  | None => (None, st)
  | Some student =>
      let updatedStudent :=
        {| Student.id := Student.id student;
           Student.admissionNo :=
             spread (Student.admissionNo student) (StudentUpdates.admissionNo updates);
           Student.name := spread (Student.name student) (StudentUpdates.name updates);
           Student.className :=
             spread (Student.className student) (StudentUpdates.className updates);
           Student.section :=
             spread (Student.section student) (StudentUpdates.section updates);
           Student.rollNo := spread (Student.rollNo student) (StudentUpdates.rollNo updates);
           Student.email := spread (Student.email student) (StudentUpdates.email updates);
           Student.contactNo :=
             spread (Student.contactNo student) (StudentUpdates.contactNo updates);
           Student.parentContact :=
             spread (Student.parentContact student) (StudentUpdates.parentContact updates);
           Student.photoUrl :=
             spread (Student.photoUrl student) (StudentUpdates.photoUrl updates);
           Student.qrCode := Student.qrCode student;
           Student.faceDescriptor :=
             spread (Student.faceDescriptor student) (StudentUpdates.faceDescriptor updates);
           Student.createdAt := Student.createdAt student |} in
      (Some updatedStudent,
       with_students st (JsMap.set (students st) id updatedStudent))
  end.

Definition deleteStudent (id : string) (st : MemStorage) : bool * MemStorage :=
  let (existed, m) := JsMap.delete (students st) id in
  (existed, with_students st m).

(** Each element comes with the environment its [createStudent] reads. *)
Fixpoint bulkCreateStudents (insertStudents : list (Env * InsertStudent.t))
         (st : MemStorage) : list Student.t * MemStorage :=
  match insertStudents with
  | [] => ([], st)
  | (env, insertStudent) :: rest =>
      let (student, st1) := createStudent env insertStudent st in
      let (students, st2) := bulkCreateStudents rest st1 in
      (student :: students, st2)
  end.

(** *** Attendance methods *)

Definition getAttendance (st : MemStorage) (studentId date : string)
  : option Attendance.t :=
  Array_find
    (fun a => (Attendance.studentId a =? studentId)%string
              && (Attendance.date a =? date)%string)
    (JsMap.values (attendance st)).

Definition getAttendanceByDate (st : MemStorage) (date : string)
           (className : option string) : list Attendance.t :=
  let attendanceRecords :=
    filter (fun a => (Attendance.date a =? date)%string)
           (JsMap.values (attendance st)) in
  match className with
  | Some c =>
      if truthy className then
        let studentsInClass :=
          filter (fun s => (Student.className s =? c)%string)
                 (JsMap.values (students st)) in
        let studentIds := map Student.id studentsInClass in
        filter (fun a => existsb (String.eqb (Attendance.studentId a)) studentIds)
               attendanceRecords
      else attendanceRecords
  | None => attendanceRecords
  end.

Definition by_date_desc (a b : Attendance.t) : Z :=
  localeCompare (Attendance.date b) (Attendance.date a).

Definition getAttendanceHistory (st : MemStorage) (studentId : string)
           (dateRange : option (string * string)) : list Attendance.t :=
  let records :=
    filter (fun a => (Attendance.studentId a =? studentId)%string)
           (JsMap.values (attendance st)) in
  let records :=
    match dateRange with
    | Some (from, to) =>
        filter (fun a => str_ge (Attendance.date a) from
                         && str_le (Attendance.date a) to) records
    | None => records
    end in
  Array_sort by_date_desc records.

Definition createAttendance (env : Env) (insertAttendance : InsertAttendance.t)
           (st : MemStorage) : Attendance.t * MemStorage :=
  let a :=
    {| Attendance.id := uuid env;
       Attendance.studentId := InsertAttendance.studentId insertAttendance;
       Attendance.date := InsertAttendance.date insertAttendance;
       Attendance.status := InsertAttendance.status insertAttendance;
       Attendance.method := or_null (InsertAttendance.method insertAttendance);
       Attendance.timestamp := Some (now env);
       Attendance.markedBy := or_null (InsertAttendance.markedBy insertAttendance) |} in
  (a, with_attendance st (JsMap.set (attendance st) (Attendance.id a) a)).

Definition getClasses (st : MemStorage) : list Klass.t :=
  JsMap.values (classes st).

(** *** Statistics methods *)

Definition has_status (s : string) (a : Attendance.t) : bool :=
  (Attendance.status a =? s)%string.

Definition getAttendanceStats (st : MemStorage) (date : string)
           (className : option string) : Stats :=
  let students :=
    getStudents st
      (if truthy className
       then Some {| filter_className := className; filter_section := None |}
       else None) in
  let attendanceRecords := getAttendanceByDate st date className in
  let totalStudents := Z.of_nat (List.length students) in
  let present := count (has_status "present") attendanceRecords in
  let absent := count (has_status "absent") attendanceRecords in
  let late := count (has_status "late") attendanceRecords in
  (* Count students without attendance records as absent *)
  let unmarked := totalStudents - Z.of_nat (List.length attendanceRecords) in
  let totalAbsent := absent + unmarked in
  let attendanceRate :=
    if 0 <? totalStudents
    then Num.mul (Num.div (Num.of_Z present) (Num.of_Z totalStudents)) (Num.of_Z 100)
    else Num.of_Z 0 in
  {| totalStudents := totalStudents;
     present := present;
     absent := totalAbsent;
     late := late;
     attendanceRate := attendanceRate |}.

Definition getStudentAttendancePercentage (st : MemStorage) (studentId : string)
           (dateRange : option (string * string)) : Num.t :=
  let records := getAttendanceHistory st studentId dateRange in
  if (List.length records =? 0)%nat then Num.of_Z 0
  else
    let presentDays :=
      count (fun r => has_status "present" r || has_status "late" r) records in
    Num.mul (Num.div (Num.of_Z presentDays) (Num.of_Z (Z.of_nat (List.length records))))
            (Num.of_Z 100).

End Storage.

(* ================================================================== *)
(** ** server/routes.ts *)

Record StudentSummary := {
  summary_name : string;
  summary_admissionNo : string;
  summary_className : string;
  summary_section : string
}.

(** An element of [reportData]. *)
Record ReportEntry := {
  entry_student : Student.t;
  totalDays : Z;
  presentDays : Z;
  absentDays : Z;
  percentage : Num.t
}.

(** A cell of the sheet [XLSX.utils.json_to_sheet] is given. *)
Inductive Cell :=
| Cell_string (s : string)
| Cell_number (n : Num.t).

(** A row object, its properties in the order they are written. *)
Definition SheetRow := list (string * Cell).

(** What the PDF branch asks of the document, in order. *)
Inductive PdfText :=
| Text_literal (s : string)
| Text_date_range (from to : string)
| Text_generated_on (d : Date)
| Text_count (n : Z)
| Text_percent (n : Num.t).

Inductive PdfOp :=
| Pdf_fontSize (n : Z)
| Pdf_text (t : PdfText) (x y : Z)
| Pdf_addPage.

Inductive Payload :=
| Json_message (message : string)
| Json_attendance (a : Attendance.t)
| Json_marked (message : string) (student : StudentSummary)
              (a : Attendance.t) (confidence : option Num.t)
| Json_report (reportData : list ReportEntry)
| Xlsx_file (sheetName : string) (rows : list SheetRow)
| Csv_file (csv : string)
| Pdf_file (ops : list PdfOp).

Record Response := { status : Z; payload : Payload }.

(** The error taxonomy of the specification, as the responses that carry it. *)
Definition NotFoundError : Response :=
  {| status := 404; payload := Json_message "Student not found" |}.
Definition DuplicateError : Response :=
  {| status := 400; payload := Json_message "Attendance already marked for today" |}.
Definition LowConfidenceError : Response :=
  {| status := 400; payload := Json_message "Face recognition confidence too low" |}.

(** A call of a handler to a method of [storage]. *)
Inductive StoreCall :=
| Call_getStudent (id : option string)
| Call_getAttendance (studentId date : string)
| Call_createAttendance (a : InsertAttendance.t).

(** The server a handler runs against: the store and the calls made to it
    so far, oldest first. *)
Record Server := { storage : MemStorage; calls : list StoreCall }.

Definition Handler (A : Type) := Server -> A * Server.

Definition ret {A} (a : A) : Handler A := fun sv => (a, sv).

Definition bind {A B} (c : Handler A) (k : A -> Handler B) : Handler B :=
  fun sv => let (a, sv') := c sv in k a sv'.

Notation "x <- c ;; k" := (bind c (fun x => k))
  (at level 61, c at next level, right associativity).

Definition logged (c : StoreCall) (sv : Server) (st : MemStorage) : Server :=
  {| storage := st; calls := calls sv ++ [c] |}.

(** A handler started on a store, no call made yet. *)
Definition run {A} (h : Handler A) (st : MemStorage) : A * Server :=
  h {| storage := st; calls := [] |}.

Definition sheet_row (r : ReportEntry) : SheetRow :=
  let s := entry_student r in
  [ ("Admission No", Cell_string (Student.admissionNo s));
    ("Name", Cell_string (Student.name s));
    ("Class", Cell_string (Student.className s ++ "-" ++ Student.section s));
    ("Total Days", Cell_number (Num.of_Z (totalDays r)));
    ("Present Days", Cell_number (Num.of_Z (presentDays r)));
    ("Absent Days", Cell_number (Num.of_Z (absentDays r)));
    ("Attendance %", Cell_number (percentage r)) ].

(** The data rows of the PDF, from vertical position [y]. *)
Fixpoint pdf_rows (reportData : list ReportEntry) (yPosition : Z) : list PdfOp :=
  match reportData with
  | [] => []
  | data :: rest =>
      let newPage := 700 <? yPosition in
      let yPosition := if newPage then 50 else yPosition in
      let s := entry_student data in
      (if newPage then [Pdf_addPage] else [])
      ++ [ Pdf_text (Text_literal (Student.admissionNo s)) 50 yPosition;
           Pdf_text (Text_literal (Student.name s)) 150 yPosition;
           Pdf_text (Text_literal (Student.className s ++ "-" ++ Student.section s))
                    250 yPosition;
           Pdf_text (Text_count (presentDays data)) 300 yPosition;
           Pdf_text (Text_count (absentDays data)) 350 yPosition;
           Pdf_text (Text_percent (percentage data)) 400 yPosition ]
      ++ pdf_rows rest (yPosition + 15)
  end.

Section Routes.

Context {P : Platform}.

(** [XLSX.utils.sheet_to_csv(XLSX.utils.json_to_sheet(rows))], the encoder
    of the xlsx package. *)
Variable sheet_to_csv : list SheetRow -> string.

Definition storage_getStudent (id : option string) : Handler (option Student.t) :=
  fun sv =>
    (match id with Some id => getStudent (storage sv) id | None => None end,
     logged (Call_getStudent id) sv (storage sv)).

Definition storage_getAttendance (studentId date : string)
  : Handler (option Attendance.t) :=
  fun sv =>
    (getAttendance (storage sv) studentId date,
     logged (Call_getAttendance studentId date) sv (storage sv)).

Definition storage_createAttendance (env : Env) (a : InsertAttendance.t)
  : Handler Attendance.t :=
  fun sv =>
    let (created, st) := createAttendance env a (storage sv) in
    (created, logged (Call_createAttendance a) sv st).

Definition json (code : Z) (p : Payload) : Handler Response :=
  ret {| status := code; payload := p |}.

Definition summary (student : Student.t) : StudentSummary :=
  {| summary_name := Student.name student;
     summary_admissionNo := Student.admissionNo student;
     summary_className := Student.className student;
     summary_section := Student.section student |}.

(** [POST /api/attendance] *)
Definition post_attendance (env : Env) (body : AttendanceBody.t)
  : Handler Response :=
  match insertAttendanceSchema_parse body with
  | None => json 400 (Json_message "Invalid attendance data")
  | Some attendanceData =>
      attendance <- storage_createAttendance env attendanceData ;;
      json 201 (Json_attendance attendance)
  end.

(** [POST /api/attendance/qr] *)
Definition post_attendance_qr (env : Env) (body : QrBody.t) : Handler Response :=
  let failed := json 400 (Json_message "Invalid QR code or failed to mark attendance") in
  match qrAttendanceSchema_parse body with
  | None => failed
  | Some qrData =>
      (* Parse QR data *)
      match JSON_parse_studentId qrData with
      | None => failed
      | Some studentId =>
          student <- storage_getStudent studentId ;;
          match student with
          | None => ret NotFoundError
          | Some student =>
              (* Check if attendance already marked for today *)
              let today := split_T_0 (toISOString (now env)) in
              existingAttendance <- storage_getAttendance (Student.id student) today ;;
              match existingAttendance with
              | Some _ => ret DuplicateError
              | None =>
                  (* Mark attendance *)
                  attendance <-
                    storage_createAttendance env
                      {| InsertAttendance.studentId := Student.id student;
                         InsertAttendance.date := today;
                         InsertAttendance.status := "present";
                         InsertAttendance.method := Some "qr";
                         InsertAttendance.markedBy := None |} ;;
                  json 200 (Json_marked "Attendance marked successfully"
                                        (summary student) attendance None)
              end
          end
      end
  end.

(** [POST /api/attendance/face] *)
Definition post_attendance_face (env : Env) (body : FaceBody.t) : Handler Response :=
  match faceRecognitionSchema_parse body with
  | None => json 400 (Json_message "Face recognition failed")
  | Some (studentId, imageData, confidence) =>
      if Num.ltb confidence (Num.of_Z 80) then ret LowConfidenceError
      else
        student <- storage_getStudent (Some studentId) ;;
        match student with
        | None => ret NotFoundError
        | Some student =>
            (* Check if attendance already marked for today *)
            let today := split_T_0 (toISOString (now env)) in
            existingAttendance <- storage_getAttendance (Student.id student) today ;;
            match existingAttendance with
            | Some _ => ret DuplicateError
            | None =>
                (* Mark attendance *)
                attendance <-
                  storage_createAttendance env
                    {| InsertAttendance.studentId := Student.id student;
                       InsertAttendance.date := today;
                       InsertAttendance.status := "present";
                       InsertAttendance.method := Some "face";
                       InsertAttendance.markedBy := None |} ;;
                json 200 (Json_marked "Attendance marked via face recognition"
                                      (summary student) attendance (Some confidence))
            end
        end
  end.

(** [POST /api/reports/generate]: the rows, one per student. *)
Definition report_entry (st : MemStorage) (dateRange : string * string)
           (student : Student.t) : ReportEntry :=
  let history := getAttendanceHistory st (Student.id student) (Some dateRange) in
  let percentage :=
    getStudentAttendancePercentage st (Student.id student) (Some dateRange) in
  let presentDays :=
    count (fun h => has_status "present" h || has_status "late" h) history in
  let absentDays := count (has_status "absent") history in
  {| entry_student := student;
     totalDays := Z.of_nat (List.length history);
     presentDays := presentDays;
     absentDays := absentDays;
     percentage := Num.round percentage |}.

Definition reportData (st : MemStorage) (dateRange : string * string)
           (className : option string) : list ReportEntry :=
  (* Get students based on filters *)
  let students :=
    getStudents st
      (if truthy className
       then Some {| filter_className := className; filter_section := None |}
       else None) in
  map (report_entry st dateRange) students.

(** The [if (format === ...)] chain that sends the response. *)
Definition send_report (env : Env) (format : string) (dateRange : string * string)
           (reportData : list ReportEntry) : Response :=
  if (format =? "excel")%string then
    {| status := 200;
       payload := Xlsx_file "Attendance Report" (map sheet_row reportData) |}
  else if (format =? "csv")%string then
    {| status := 200; payload := Csv_file (sheet_to_csv (map sheet_row reportData)) |}
  else if (format =? "pdf")%string then
    {| status := 200;
       payload :=
         Pdf_file
           ([ Pdf_fontSize 20; Pdf_text (Text_literal "Attendance Report") 100 100;
              Pdf_fontSize 12; Pdf_text (Text_generated_on (now env)) 100 130;
              Pdf_fontSize 12;
              Pdf_text (Text_date_range (fst dateRange) (snd dateRange)) 100 150;
              Pdf_fontSize 10;
              Pdf_text (Text_literal "Admission No") 50 200;
              Pdf_text (Text_literal "Name") 150 200;
              Pdf_text (Text_literal "Class") 250 200;
              Pdf_text (Text_literal "Present") 300 200;
              Pdf_text (Text_literal "Absent") 350 200;
              Pdf_text (Text_literal "Percentage") 400 200 ]
            ++ pdf_rows reportData 220) |}
  else
    {| status := 200; payload := Json_report reportData |}.

Definition post_reports_generate (env : Env) (body : ReportBody.t)
           (st : MemStorage) : Response :=
  match reportGenerationSchema_parse body with
  | None => {| status := 400; payload := Json_message "Failed to generate report" |}
  | Some (_, dateRange, className, format) =>
      send_report env format dateRange (reportData st dateRange className)
  end.

End Routes.

(* ================================================================== *)
(** ** Reachable stores

    The routes change the store through four methods:
    [POST /api/students] and the bulk upload through [createStudent],
    [PUT /api/students/:id] through [updateStudent],
    [DELETE /api/students/:id] through [deleteStudent], and the three
    attendance routes through [createAttendance]. *)

Section Reachability.

Inductive step : MemStorage -> MemStorage -> Prop :=
| step_createStudent env ins st :
    step st (snd (createStudent env ins st))
| step_updateStudent id updates st :
    step st (snd (updateStudent id updates st))
| step_deleteStudent id st :
    step st (snd (deleteStudent id st))
| step_createAttendance env ins st :
    step st (snd (createAttendance env ins st)).

Inductive reachable (st0 : MemStorage) : MemStorage -> Prop :=
| reach_here : reachable st0 st0
| reach_step st st' : reachable st0 st -> step st st' -> reachable st0 st'.

(** The keys of the students map are the identifiers of its values, once each. *)
Definition students_wf (m : JsMap.t Student.t) : Prop :=
  NoDup (JsMap.keys m) /\ forall k s, In (k, s) m -> Student.id s = k.

End Reachability.

(* ================================================================== *)
(** ** More of server/storage.ts *)

(** [Partial<InsertAttendance>], as [StudentUpdates] is for students. *)
Module AttendanceUpdates.
Record t := {
  studentId : option string;
  date : option string;
  status : option string;
  method : option (option string);
  markedBy : option (option string)
}.
End AttendanceUpdates.


(** *** User methods *)

Definition getUser (st : MemStorage) (id : string) : option User.t :=
  JsMap.get (users st) id.

Definition getUserByUsername (st : MemStorage) (username : string) : option User.t :=
  Array_find (fun user => (User.username user =? username)%string)
             (JsMap.values (users st)).

(* ================================================================== *)
(** ** More of server/routes.ts *)

Module LoginBody.
Record t := {
  username : option string;
  password : option string;
  role : option string
}.
End LoginBody.

(** [loginSchema]: [username] and [password] are [z.string().min(1)],
    [role] is [z.enum(["admin", "teacher"])]. *)
Definition loginSchema_parse (b : LoginBody.t) : option (string * string * string) :=
  match LoginBody.username b, LoginBody.password b, LoginBody.role b with
  | Some u, Some p, Some r =>
      if negb (u =? "")%string && negb (p =? "")%string
         && one_of ["admin"; "teacher"] r
      then Some (u, p, r) else None
  | _, _, _ => None
  end.

(** The [user] object of a successful login. *)
Record UserSummary := {
  login_id : string;
  login_username : string;
  login_role : string;
  login_name : string;
  login_email : option string
}.

Inductive LoginPayload :=
| Login_user (user : UserSummary)
| Login_message (message : string).

(** [POST /api/auth/login] *)
Definition post_auth_login (body : LoginBody.t) (st : MemStorage) : Z * LoginPayload :=
  match loginSchema_parse body with
  | None => (400, Login_message "Invalid request data")
  | Some (username, password, role) =>
      match getUserByUsername st username with
      | None => (401, Login_message "Invalid credentials")
      | Some user =>
          if negb (User.password user =? password)%string
             || negb (User.role user =? role)%string
          then (401, Login_message "Invalid credentials")
          else (200, Login_user
                       {| login_id := User.id user;
                          login_username := User.username user;
                          login_role := User.role user;
                          login_name := User.name user;
                          login_email := User.email user |})
      end
  end.

(** [DELETE /api/students/:id]: the status and message sent, and the store. *)
Definition delete_student_route (id : string) (st : MemStorage)
  : (Z * string) * MemStorage :=
  let (success, st') := deleteStudent id st in
  if negb success then ((404, "Student not found"), st')
  else ((200, "Student deleted successfully"), st').

(** The record the QR route asks the store to create. *)
Definition qr_insert (env : Env) (student : Student.t) : InsertAttendance.t :=
  {| InsertAttendance.studentId := Student.id student;
     InsertAttendance.date := split_T_0 (toISOString (now env));
     InsertAttendance.status := "present";
     InsertAttendance.method := Some "qr";
     InsertAttendance.markedBy := None |}.

Section Dashboard.

Context {P : Platform}.

(** [GET /api/dashboard/stats]: [overall] and [byClass], each entry of
    [byClass] the label [class] with the statistics spread beside it. *)
Definition get_dashboard_stats (env : Env) (st : MemStorage)
  : Stats * list (string * Stats) :=
  let today := split_T_0 (toISOString (now env)) in
  let stats := getAttendanceStats st today None in
  (* Get class-wise stats *)
  let classStats :=
    map (fun cls =>
           (Klass.name cls ++ "-" ++ Klass.section cls,
            getAttendanceStats st today (Some (Klass.name cls))))
        (getClasses st) in
  (stats, classStats).

End Dashboard.

(* ================================================================== *)
(** ** client/src/lib/face-recognition.ts *)

(** [isConfidenceValid(confidence, minimumThreshold = 80)] *)
Definition isConfidenceValid (confidence minimumThreshold : Num.t) : bool :=
  Num.leb minimumThreshold confidence.

(* ================================================================== *)
(** ** A host for the examples

    Collation by code units, and QR payloads that are the bare student
    identifier (the empty payload does not parse). *)

Definition ordinal_compare (a b : string) : Z :=
  match String.compare a b with
  | Lt => -1
  | Eq => 0
  | Gt => 1
  end.

Definition example_platform : Platform :=
  {| localeCompare := ordinal_compare;
     JSON_parse_studentId :=
       fun qrData => if (qrData =? "")%string then None else Some (Some qrData) |}.

Definition example_date : Date :=
  {| getTime := 1793664000000; toISOString := "2026-11-03T00:00:00.000Z" |}.

Definition example_seed : SeedIds :=
  {| admin_id := "u1"; teacher_id := "u2"; class_id := "c1";
     student1_id := "s1"; student2_id := "s2"; student3_id := "s3";
     attendance1_id := "a1"; attendance2_id := "a2" |}.

Definition example_store : MemStorage :=
  initializeDefaultData example_seed example_date.

(* ================================================================== *)
(** ** The specification's vocabulary

    Definitions that follow the words of the specification; the
    properties below compare them with the code. *)

(** A filter field constrains a student only when it is given and non-empty. *)
Definition field_matches (wanted : option string) (actual : string) : bool :=
  match wanted with
  | Some w => if (w =? "")%string then true else (actual =? w)%string
  | None => true
  end.

(** "students whose fields match the given non-empty filter fields" *)
Definition matches_filters (filters : option StudentFilters) (s : Student.t) : bool :=
  match filters with
  | None => true
  | Some f =>
      field_matches (filter_className f) (Student.className s)
      && field_matches (filter_section f) (Student.section s)
  end.

(** "the records of S whose date string d satisfies from <= d and d <= to
    under lexicographic string comparison" *)
Definition in_history (sid : string) (dateRange : option (string * string))
           (a : Attendance.t) : bool :=
  (Attendance.studentId a =? sid)%string
  && match dateRange with
     | Some (from, to) =>
         String.leb from (Attendance.date a) && String.leb (Attendance.date a) to
     | None => true
     end.

(** "dates formatted YYYY-MM-DD": the decimal digits of a number on a
    fixed width, zeros in front, and the date text made of them. *)
Definition digit (n : nat) : ascii := ascii_of_nat (48 + n).

Fixpoint zero_padded (width n : nat) : string :=
  match width with
  | O => EmptyString
  | S w => String (digit (n / 10 ^ w)) (zero_padded w (n mod 10 ^ w))
  end.

Definition iso_date (y m d : nat) : string :=
  zero_padded 4 y ++ "-" ++ zero_padded 2 m ++ "-" ++ zero_padded 2 d.

(** The day [y-m-d] is not after the day [y'-m'-d']. *)
Definition calendar_le (y m d y' m' d' : nat) : Prop :=
  (y < y' \/ (y = y' /\ (m < m' \/ (m = m' /\ d <= d'))))%nat.

(** Lexicographic combination of two comparisons. *)
Definition then_by (c rest : comparison) : comparison :=
  match c with Eq => rest | _ => c end.

(** "Students matching the class filter" *)
Definition student_in_scope (className : option string) (s : Student.t) : bool :=
  field_matches className (Student.className s).

(** "matching records ... for D": dated [D] and, under a class filter, of a
    student the store holds in that class. *)
Definition record_in_scope (st : MemStorage) (D : string) (className : option string)
           (a : Attendance.t) : bool :=
  (Attendance.date a =? D)%string
  && match className with
     | Some c =>
         if (c =? "")%string then true
         else existsb (fun s => (Student.className s =? c)%string
                                && (Student.id s =? Attendance.studentId a)%string)
                      (JsMap.values (students st))
     | None => true
     end.

(** The encodings [reportGenerationSchema] lists. *)
Definition report_formats : list string := ["excel"; "csv"; "pdf"].

(** ** Stores for the examples *)

Definition empty_store : MemStorage :=
  {| users := JsMap.empty; students := JsMap.empty;
     attendance := JsMap.empty; classes := JsMap.empty |}.

Definition mark (id studentId date status : string) (st : MemStorage) : MemStorage :=
  snd (createAttendance
         {| uuid := id; now := example_date |}
         {| InsertAttendance.studentId := studentId;
            InsertAttendance.date := date;
            InsertAttendance.status := status;
            InsertAttendance.method := Some "manual";
            InsertAttendance.markedBy := None |}
         st).

(** A student with the history [present, absent, late]. *)
Definition history_store : MemStorage :=
  mark "r3" "s1" "2026-11-03" "late"
    (mark "r2" "s1" "2026-11-02" "absent"
       (mark "r1" "s1" "2026-11-01" "present" empty_store)).

(** On an empty store: a student is created, marked present for
    2026-11-03 and deleted. *)
Definition orphan_store : MemStorage :=
  snd (deleteStudent "new"
         (mark "r1" "new" "2026-11-03" "present"
            (snd (createStudent
                    {| uuid := "new"; now := example_date |}
                    {| InsertStudent.admissionNo := "APS004";
                       InsertStudent.name := "New Student";
                       InsertStudent.className := "12";
                       InsertStudent.section := "A";
                       InsertStudent.rollNo := "03";
                       InsertStudent.email := None;
                       InsertStudent.contactNo := None;
                       InsertStudent.parentContact := None;
                       InsertStudent.photoUrl := None;
                       InsertStudent.faceDescriptor := None |}
                    empty_store)))).

(** A student to register, contact fields left out. *)
Definition new_student (admissionNo name className section : string) : InsertStudent.t :=
  {| InsertStudent.admissionNo := admissionNo;
     InsertStudent.name := name;
     InsertStudent.className := className;
     InsertStudent.section := section;
     InsertStudent.rollNo := "09";
     InsertStudent.email := None;
     InsertStudent.contactNo := None;
     InsertStudent.parentContact := None;
     InsertStudent.photoUrl := None;
     InsertStudent.faceDescriptor := None |}.

(** ** Requests for the examples *)

(** The class filter "12" with an empty section field. *)
Definition class12 : option StudentFilters :=
  Some {| filter_className := Some "12"; filter_section := Some "" |}.

(** What [randomUUID()] and [new Date()] give a request of the examples. *)
Definition example_env (id : string) : Env := {| uuid := id; now := example_date |}.

(** A face request that passes the shape checks of its schema. *)
Definition face_body (studentId : string) (confidence : Num.t) : FaceBody.t :=
  {| FaceBody.studentId := Some studentId;
     FaceBody.imageData := Some "data:image/jpeg;base64,";
     FaceBody.confidence := Some confidence |}.

(** A manual marking, every required property present. *)
Definition manual_body (studentId date status : string) : AttendanceBody.t :=
  {| AttendanceBody.studentId := Some studentId;
     AttendanceBody.date := Some date;
     AttendanceBody.status := Some status;
     AttendanceBody.method := Some "manual";
     AttendanceBody.markedBy := None |}.

(** The record is one of the pair (student, date). *)
Definition same_pair (studentId date : string) (a : Attendance.t) : bool :=
  (Attendance.studentId a =? studentId)%string && (Attendance.date a =? date)%string.

(** The record the face route asks the store to create. *)
Definition face_insert (env : Env) (student : Student.t) : InsertAttendance.t :=
  {| InsertAttendance.studentId := Student.id student;
     InsertAttendance.date := split_T_0 (toISOString (now env));
     InsertAttendance.status := "present";
     InsertAttendance.method := Some "face";
     InsertAttendance.markedBy := None |}.

(** ** Invariants of the store *)

(** No (student, date) pair has more than one attendance record. *)
Definition day_unique (m : JsMap.t Attendance.t) : Prop :=
  forall studentId date, count (same_pair studentId date) (JsMap.values m) <= 1.

(** A record whose status is none of present, absent, late. *)
Definition other_status (a : Attendance.t) : bool :=
  negb (has_status "present" a || has_status "absent" a || has_status "late" a).




(** ** The QR payloads of the server *)

Definition dquote : string := String (ascii_of_nat 34) EmptyString.

(** A string between double quotes, as JSON writes one that needs no escape. *)
Definition json_text (s : string) : string := dquote ++ s ++ dquote.

(** [JSON.stringify({ studentId, admissionNo, name })], the payload
    [GET /api/students/:id/qr] encodes, for strings that need no escape. *)
Definition qr_payload (studentId admissionNo name : string) : string :=
  "{" ++ json_text "studentId" ++ ":" ++ json_text studentId
  ++ "," ++ json_text "admissionNo" ++ ":" ++ json_text admissionNo
  ++ "," ++ json_text "name" ++ ":" ++ json_text name ++ "}".

Fixpoint strip_prefix (p s : string) : option string :=
  match p, s with
  | EmptyString, _ => Some s
  | String a p', String b s' => if (a =? b)%char then strip_prefix p' s' else None
  | String _ _, EmptyString => None
  end.

(** The characters up to the closing quote, and what follows it; a
    backslash, which starts an escape, is not read. *)
Fixpoint until_quote (s : string) : option (string * string) :=
  match s with
  | EmptyString => None
  | String c s' =>
      if (c =? ascii_of_nat 34)%char then Some (EmptyString, s')
      else if (c =? ascii_of_nat 92)%char then None
      else match until_quote s' with
           | Some (v, rest) => Some (String c v, rest)
           | None => None
           end
  end.

Definition read_member (key s : string) : option (string * string) :=
  match strip_prefix (json_text key ++ ":" ++ dquote) s with
  | Some s' => until_quote s'
  | None => None
  end.

(** A reader of the payloads [qr_payload] writes; every other text is
    taken as one [JSON.parse] throws on. *)
Definition read_qr_payload (s : string) : option (option string) :=
  match strip_prefix "{" s with
  | None => None
  | Some s0 =>
      match read_member "studentId" s0 with
      | None => None
      | Some (studentId, s1) =>
          match strip_prefix "," s1 with
          | None => None
          | Some s2 =>
              match read_member "admissionNo" s2 with
              | None => None
              | Some (_, s3) =>
                  match strip_prefix "," s3 with
                  | None => None
                  | Some s4 =>
                      match read_member "name" s4 with
                      | None => None
                      | Some (_, s5) =>
                          if (s5 =? "}")%string then Some (Some studentId) else None
                      end
                  end
              end
          end
      end
  end.

(** A host for the QR examples: code-unit collation and the reader above. *)
Definition qr_example_platform : Platform :=
  {| localeCompare := ordinal_compare;
     JSON_parse_studentId := read_qr_payload |}.

(** The payload of the seeded student Rahul Kumar. *)
Definition rahul_payload : string := qr_payload "s3" "APS003" "Rahul Kumar".

(** A request later the same day than [example_date]. *)
Definition example_afternoon : Date :=
  {| getTime := 1793719800000; toISOString := "2026-11-03T15:30:00.000Z" |}.

Definition afternoon_env (id : string) : Env := {| uuid := id; now := example_afternoon |}.

(** ** The words of two claims *)

(** "the face endpoint rejects before any store access": the answer is
    not a success and the store was not called. *)
Definition rejected_before_store (result : Response * Server) : Prop :=
  status (fst result) <> 200 /\ calls (snd result) = [].


(** The report request of the examples, with the format left open. *)
Definition november_report (format : option string) : ReportBody.t :=
  {| ReportBody.type := Some "daily";
     ReportBody.dateRange := Some ("2026-11-01", "2026-11-30");
     ReportBody.className := Some "12";
     ReportBody.format := format |}.

(* ================================================================== *)
(** * Properties *)

(** ** Lists and [Array.prototype.sort] *)

Section ArraySortFacts.

Variable A : Type.
Variable cmp : A -> A -> Z.

Lemma sort_insert_perm x l : Permutation (sort_insert cmp x l) (x :: l).
Proof.
  induction l as [|y l IH]; simpl.
  - apply Permutation_refl.
  - destruct (cmp x y <=? 0).
    + apply Permutation_refl.
    + apply perm_trans with (y :: x :: l).
      * now apply perm_skip.
      * apply perm_swap.
Qed.

Lemma Array_sort_perm l : Permutation (Array_sort cmp l) l.
Proof.
  induction l as [|x l IH]; simpl.
  - apply perm_nil.
  - eapply perm_trans; [apply sort_insert_perm|now apply perm_skip].
Qed.

Lemma Array_sort_length l : List.length (Array_sort cmp l) = List.length l.
Proof. apply Permutation_length, Array_sort_perm. Qed.

Lemma Array_sort_In x l : In x (Array_sort cmp l) <-> In x l.
Proof.
  split; apply Permutation_in;
    [apply Array_sort_perm | apply Permutation_sym, Array_sort_perm].
Qed.

(** Filtering commutes with counting after a sort. *)
Lemma count_Array_sort p l : count p (Array_sort cmp l) = count p l.
Proof.
  unfold count. f_equal.
  apply Permutation_length.
  (* a permutation of the list permutes the filtered list *)
  generalize (Array_sort_perm l).
  generalize (Array_sort cmp l) as l'.
  intros l' HP. induction HP; simpl.
  - apply perm_nil.
  - destruct (p x); [now apply perm_skip | assumption].
  - destruct (p x), (p y); try apply Permutation_refl. apply perm_swap.
  - eapply perm_trans; eassumption.
Qed.

Hypothesis cmp_flip : forall a b, Z.sgn (cmp b a) = - Z.sgn (cmp a b).
Hypothesis cmp_transitive :
  forall a b c, cmp a b <= 0 -> cmp b c <= 0 -> cmp a c <= 0.

Lemma precedes_total a b : precedes cmp a b \/ precedes cmp b a.
Proof. unfold precedes. specialize (cmp_flip a b). lia. Qed.

Lemma sort_insert_sorted x l :
  StronglySorted (precedes cmp) l -> StronglySorted (precedes cmp) (sort_insert cmp x l).
Proof.
  induction l as [|y l IH]; simpl; intros HS.
  - constructor; constructor.
  - inversion HS as [|? ? HSl HF]; subst.
    destruct (cmp x y <=? 0) eqn:E.
    + apply Z.leb_le in E. constructor; [assumption|].
      constructor; [exact E|].
      eapply Forall_impl; [|exact HF].
      intros z Hz. now apply cmp_transitive with y.
    + apply Z.leb_gt in E.
      assert (Hyx : precedes cmp y x).
      { destruct (precedes_total y x) as [H|H]; [exact H|unfold precedes in H; lia]. }
      constructor; [now apply IH|].
      eapply Permutation_Forall;
        [apply Permutation_sym, sort_insert_perm|].
      now constructor.
Qed.

Lemma Array_sort_sorted l : StronglySorted (precedes cmp) (Array_sort cmp l).
Proof.
  induction l as [|x l IH]; simpl.
  - constructor.
  - now apply sort_insert_sorted.
Qed.

Lemma tie_blocks x a y : tie cmp x a = true -> 0 < cmp a y -> tie cmp x y = false.
Proof.
  unfold tie. intros Hxa Hay.
  apply Z.eqb_eq in Hxa. apply Z.eqb_neq. intros Hxy.
  assert (Hax : cmp a x <= 0) by (specialize (cmp_flip x a); lia).
  assert (cmp a y <= 0) by (apply cmp_transitive with x; lia).
  lia.
Qed.

Lemma filter_tie_insert x a l :
  filter (tie cmp x) (sort_insert cmp a l) = filter (tie cmp x) (a :: l).
Proof.
  induction l as [|y l IH]; simpl; [reflexivity|].
  destruct (cmp a y <=? 0) eqn:E; simpl; [reflexivity|].
  apply Z.leb_gt in E. simpl in IH. rewrite IH.
  destruct (tie cmp x a) eqn:Ta; [|reflexivity].
  now rewrite (@tie_blocks x a y Ta E).
Qed.

(** Stability: the elements that tie with [x] keep their order. *)
Lemma Array_sort_stable x l :
  filter (tie cmp x) (Array_sort cmp l) = filter (tie cmp x) l.
Proof.
  induction l as [|a l IH]; simpl; [reflexivity|].
  rewrite filter_tie_insert. simpl. now rewrite IH.
Qed.

End ArraySortFacts.

(** ** The example host is a consistent comparator *)

Lemma ordinal_compare_consistent : consistent_comparator ordinal_compare.
Proof.
  split.
  - intros a b. unfold ordinal_compare.
    change (String.compare a b) with (OrderedTypeEx.String_as_OT.cmp a b).
    rewrite (OrderedTypeEx.String_as_OT.cmp_antisym a b).
    change (OrderedTypeEx.String_as_OT.cmp b a) with (String.compare b a).
    destruct (String.compare b a); reflexivity.
  - intros a b c. unfold ordinal_compare.
    destruct (String.compare a b) eqn:Eab; try lia;
      destruct (String.compare b c) eqn:Ebc; try lia; intros _ _.
    + apply OrderedTypeEx.String_as_OT.cmp_eq in Eab, Ebc. subst.
      unfold OrderedTypeEx.String_as_OT.cmp in *.
      destruct (String.compare c c) eqn:E; try lia.
      pose proof (proj2 (OrderedTypeEx.String_as_OT.cmp_eq c c) eq_refl) as H.
      unfold OrderedTypeEx.String_as_OT.cmp in H. congruence.
    + apply OrderedTypeEx.String_as_OT.cmp_eq in Eab. subst. rewrite Ebc. lia.
    + apply OrderedTypeEx.String_as_OT.cmp_eq in Ebc. subst. rewrite Eab. lia.
    + apply OrderedTypeEx.String_as_OT.cmp_lt in Eab, Ebc.
      pose proof (@OrderedTypeEx.String_as_OT.lt_trans a b c Eab Ebc) as H.
      apply OrderedTypeEx.String_as_OT.cmp_lt in H.
      unfold OrderedTypeEx.String_as_OT.cmp in H. rewrite H. lia.
Qed.

(** ** getStudents *)

Section GetStudents.

Context {P : Platform}.

Lemma filter_field {A} (get : A -> string) (w : string) (l : list A) :
  (if truthy (Some w) then filter (fun s => (get s =? w)%string) l else l)
  = filter (fun s => field_matches (Some w) (get s)) l.
Proof.
  unfold truthy, field_matches.
  destruct (w =? "")%string; simpl; [|reflexivity].
  induction l as [|x l IH]; simpl; [reflexivity|now rewrite <- IH].
Qed.

Lemma filter_all {A} (l : list A) : filter (fun _ => true) l = l.
Proof. induction l as [|x l IH]; simpl; [reflexivity|now rewrite IH]. Qed.

Lemma filter_twice {A} (p q : A -> bool) (l : list A) :
  filter q (filter p l) = filter (fun x => p x && q x) l.
Proof.
  induction l as [|x l IH]; simpl; [reflexivity|].
  destruct (p x); simpl; [destruct (q x)|]; now rewrite IH.
Qed.

(** [getStudents] is the stable sort, by name, of the matching students
    in insertion order. *)
Lemma getStudents_unfold st filters :
  getStudents st filters
  = Array_sort by_name
      (filter (matches_filters filters) (JsMap.values (students st))).
Proof.
  unfold getStudents. f_equal.
  destruct filters as [[c sec]|]; simpl; [|now rewrite filter_all].
  assert (Hc : forall l : list Student.t,
             match c with
             | Some c0 =>
                 if truthy (Some c0)
                 then filter (fun s => (Student.className s =? c0)%string) l
                 else l
             | None => l
             end = filter (fun s => field_matches c (Student.className s)) l).
  { intros l. destruct c as [c0|]; [apply filter_field|].
    simpl. now rewrite filter_all. }
  rewrite Hc.
  destruct sec as [sec0|].
  - rewrite (filter_field Student.section sec0). apply filter_twice.
  - rewrite <- (filter_all (filter _ _)) at 1. apply filter_twice.
Qed.

Lemma getStudents_length st filters :
  List.length (getStudents st filters)
  = List.length (filter (matches_filters filters) (JsMap.values (students st))).
Proof. rewrite getStudents_unfold. apply Array_sort_length. Qed.

End GetStudents.

(** C6. For every filter, [getStudents] returns exactly the students whose
    class and section match the non-empty filter fields (a permutation of
    them, none lost or added), sorted ascending by name under the host's
    [localeCompare], and students whose names tie keep the order in which
    the store holds them. *)
Theorem getStudents_filtered_sorted_stable
        (P : Platform) (st : MemStorage) (filters : option StudentFilters) :
  consistent_comparator localeCompare ->
  let matching := filter (matches_filters filters) (JsMap.values (students st)) in
  let result := getStudents st filters in
  Permutation result matching
  /\ StronglySorted
       (fun a b => localeCompare (Student.name a) (Student.name b) <= 0) result
  /\ forall x,
       filter (fun y => localeCompare (Student.name x) (Student.name y) =? 0) result
       = filter (fun y => localeCompare (Student.name x) (Student.name y) =? 0) matching.
Proof.
  intros [Hflip Htrans] matching result. subst matching result.
  rewrite getStudents_unfold.
  split; [apply Array_sort_perm|split].
  - apply (@Array_sort_sorted _ by_name).
    + intros a b. apply Hflip.
    + intros a b c. apply Htrans.
  - intros x. apply (@Array_sort_stable _ by_name).
    + intros a b. apply Hflip.
    + intros a b c. apply Htrans.
Qed.

Lemma getStudents_filtered_sorted_stable_witness :
  consistent_comparator (@localeCompare example_platform)
  /\ Permutation
       (@getStudents example_platform example_store class12)
       (filter (matches_filters class12) (JsMap.values (students example_store))).
Proof.
  split.
  - exact ordinal_compare_consistent.
  - exact (proj1 (@getStudents_filtered_sorted_stable
                    example_platform example_store class12
                    ordinal_compare_consistent)).
Defined.

(** On the seeded store, under code-unit collation. *)
Example getStudents_class12_section_A :
  map Student.name
      (@getStudents example_platform example_store
         (Some {| filter_className := Some "12"; filter_section := Some "A" |}))
  = ["Aarav Sharma"; "Priya Patel"].
Proof. reflexivity. Qed.

(** ** getAttendanceHistory *)

Section History.

Context {P : Platform}.

Lemma getAttendanceHistory_unfold st sid dateRange :
  getAttendanceHistory st sid dateRange
  = Array_sort by_date_desc
      (filter (in_history sid dateRange) (JsMap.values (attendance st))).
Proof.
  unfold getAttendanceHistory, in_history. f_equal.
  destruct dateRange as [[from to]|].
  - rewrite filter_twice. reflexivity.
  - induction (JsMap.values (attendance st)) as [|a l IH]; simpl; [reflexivity|].
    rewrite andb_true_r. destruct (_ =? _)%string; now rewrite IH.
Qed.

Lemma getAttendanceHistory_count st sid dateRange p :
  count p (getAttendanceHistory st sid dateRange)
  = count p (filter (in_history sid dateRange) (JsMap.values (attendance st))).
Proof. rewrite getAttendanceHistory_unfold. apply count_Array_sort. Qed.

End History.

(** *** Lexicographic order on YYYY-MM-DD texts *)

Lemma digit_compare p q :
  (p < 10)%nat -> (q < 10)%nat -> Ascii.compare (digit p) (digit q) = Nat.compare p q.
Proof.
  intros Hp Hq.
  do 10 (destruct p as [|p];
         [do 10 (destruct q as [|q]; [reflexivity|]); lia|]).
  lia.
Qed.

Lemma compare_split_digits w a b :
  (a < 10 ^ S w)%nat -> (b < 10 ^ S w)%nat ->
  Nat.compare a b
  = then_by (Nat.compare (a / 10 ^ w) (b / 10 ^ w))
            (Nat.compare (a mod 10 ^ w) (b mod 10 ^ w)).
Proof.
  intros Ha Hb.
  assert (Hpos : (10 ^ w <> 0)%nat) by (apply Nat.pow_nonzero; lia).
  pose proof (Nat.div_mod a (10 ^ w) Hpos) as Ea.
  pose proof (Nat.div_mod b (10 ^ w) Hpos) as Eb.
  pose proof (Nat.mod_upper_bound a (10 ^ w) Hpos) as Ra.
  pose proof (Nat.mod_upper_bound b (10 ^ w) Hpos) as Rb.
  unfold then_by.
  destruct (Nat.compare_spec (a / 10 ^ w) (b / 10 ^ w)) as [Hq|Hq|Hq].
  - destruct (Nat.compare_spec (a mod 10 ^ w) (b mod 10 ^ w)) as [Hr|Hr|Hr].
    + apply Nat.compare_eq_iff. rewrite Ea, Eb. congruence.
    + apply Nat.compare_lt_iff. rewrite Ea, Eb, Hq. lia.
    + apply Nat.compare_gt_iff. rewrite Ea, Eb, Hq. lia.
  - apply Nat.compare_lt_iff. nia.
  - apply Nat.compare_gt_iff. nia.
Qed.

(** Numbers written on the same width compare as their texts do. *)
Lemma zero_padded_compare w : forall a b s t,
  (a < 10 ^ w)%nat -> (b < 10 ^ w)%nat ->
  String.compare (zero_padded w a ++ s) (zero_padded w b ++ t)
  = then_by (Nat.compare a b) (String.compare s t).
Proof.
  induction w as [|w IH]; intros a b s t Ha Hb.
  - simpl in Ha, Hb. assert (a = 0%nat) by lia. assert (b = 0%nat) by lia.
    subst. reflexivity.
  - assert (Hpos : (10 ^ w <> 0)%nat) by (apply Nat.pow_nonzero; lia).
    cbn [zero_padded append String.compare].
    rewrite digit_compare.
    + rewrite IH by (apply Nat.mod_upper_bound; exact Hpos).
      rewrite (@compare_split_digits w a b Ha Hb).
      destruct (Nat.compare (a / 10 ^ w) (b / 10 ^ w)); reflexivity.
    + apply Nat.Div0.div_lt_upper_bound. rewrite Nat.mul_comm. exact Ha.
    + apply Nat.Div0.div_lt_upper_bound. rewrite Nat.mul_comm. exact Hb.
Qed.

Lemma append_empty s : (s ++ "")%string = s.
Proof. induction s as [|c s IH]; simpl; [reflexivity|now rewrite IH]. Qed.

(** On dates written YYYY-MM-DD the order of the texts is the order of
    the days. *)
Lemma iso_date_order y m d y' m' d' :
  (y < 10 ^ 4)%nat -> (m < 10 ^ 2)%nat -> (d < 10 ^ 2)%nat ->
  (y' < 10 ^ 4)%nat -> (m' < 10 ^ 2)%nat -> (d' < 10 ^ 2)%nat ->
  String.leb (iso_date y m d) (iso_date y' m' d') = true
  <-> calendar_le y m d y' m' d'.
Proof.
  intros Hy Hm Hd Hy' Hm' Hd'.
  unfold String.leb, iso_date, calendar_le.
  rewrite (@zero_padded_compare 4) by assumption.
  cbn [append String.compare].
  replace (Ascii.compare "-" "-") with Eq by reflexivity.
  rewrite (@zero_padded_compare 2) by assumption.
  cbn [append String.compare].
  replace (Ascii.compare "-" "-") with Eq by reflexivity.
  rewrite <- (append_empty (zero_padded 2 d)), <- (append_empty (zero_padded 2 d')).
  rewrite (@zero_padded_compare 2) by assumption.
  cbn [String.compare]. unfold then_by.
  destruct (Nat.compare_spec y y');
    destruct (Nat.compare_spec m m');
    destruct (Nat.compare_spec d d');
    split; intros; try discriminate; try reflexivity; lia.
Qed.

(** C9. With a date range [{from, to}], [getAttendanceHistory] returns
    exactly the records of the student whose date [d] satisfies
    [from <= d] and [d <= to] in the lexicographic order of strings: the
    result is a permutation of those records, a record is returned if and
    only if it is one of them, and a record dated [from] or [to] itself is
    returned.  On dates written YYYY-MM-DD that order of strings is the
    order of the calendar. *)
Theorem getAttendanceHistory_inclusive_range
        (P : Platform) (st : MemStorage) (sid from to : string) :
  let result := getAttendanceHistory st sid (Some (from, to)) in
  Permutation result
    (filter (in_history sid (Some (from, to))) (JsMap.values (attendance st)))
  /\ (forall a,
        In a result <->
        In a (JsMap.values (attendance st))
        /\ Attendance.studentId a = sid
        /\ String.leb from (Attendance.date a) = true
        /\ String.leb (Attendance.date a) to = true)
  /\ (forall a,
        In a (JsMap.values (attendance st)) ->
        Attendance.studentId a = sid ->
        String.leb from to = true ->
        Attendance.date a = from \/ Attendance.date a = to ->
        In a result)
  /\ (forall y m d y' m' d',
        (y < 10 ^ 4)%nat -> (m < 10 ^ 2)%nat -> (d < 10 ^ 2)%nat ->
        (y' < 10 ^ 4)%nat -> (m' < 10 ^ 2)%nat -> (d' < 10 ^ 2)%nat ->
        String.leb (iso_date y m d) (iso_date y' m' d') = true
        <-> calendar_le y m d y' m' d').
Proof.
  intros result. subst result. rewrite getAttendanceHistory_unfold.
  assert (Hin : forall a,
             In a (Array_sort by_date_desc
                     (filter (in_history sid (Some (from, to)))
                             (JsMap.values (attendance st)))) <->
             In a (JsMap.values (attendance st))
             /\ Attendance.studentId a = sid
             /\ String.leb from (Attendance.date a) = true
             /\ String.leb (Attendance.date a) to = true).
  { intros a. rewrite Array_sort_In, filter_In. unfold in_history.
    rewrite !andb_true_iff, String.eqb_eq. tauto. }
  split; [apply Array_sort_perm|split; [exact Hin|split; [|apply iso_date_order]]].
  intros a Ha HS Hft Hd. apply Hin.
  assert (Hrefl : forall x, String.leb x x = true).
  { intros x. destruct (String.leb_total x x); assumption. }
  destruct Hd as [Hd|Hd]; rewrite Hd; auto.
Qed.

(** ** getStudentAttendancePercentage *)

Lemma count_nonneg {A} (p : A -> bool) l : 0 <= count p l.
Proof. unfold count. lia. Qed.

Lemma count_cons {A} (p : A -> bool) x l :
  count p (x :: l) = (if p x then 1 else 0) + count p l.
Proof.
  unfold count. cbn [filter].
  destruct (p x); [cbn [List.length]; rewrite Nat2Z.inj_succ|]; lia.
Qed.

(** Counting a disjunction of exclusive tests adds the two counts. *)
Lemma count_either {A} (p q : A -> bool) l :
  (forall x, p x && q x = false) ->
  count (fun x => p x || q x) l = count p l + count q l.
Proof.
  intros Hpq. induction l as [|x l IH]; [reflexivity|].
  rewrite !count_cons, IH. specialize (Hpq x).
  destruct (p x), (q x); cbn [andb orb] in *; try discriminate; lia.
Qed.

Lemma present_not_late a : has_status "present" a && has_status "late" a = false.
Proof.
  unfold has_status.
  destruct (String.eqb_spec (Attendance.status a) "present") as [E|]; [|reflexivity].
  rewrite E. reflexivity.
Qed.

(** C4. Over the attendance records found for the student in the range,
    [getStudentAttendancePercentage] is 0 when there is none and otherwise
    the double [(present + late) / totalRecords * 100], a late record
    counting as a present one.  For the history [present, absent, late] it
    is the double nearest below 200/3, which lies between 66.66 and 66.67,
    and for a student without records it is 0. *)
Theorem studentPercentage_formula
        (P : Platform) (st : MemStorage) (sid : string)
        (dateRange : option (string * string)) :
  let records := filter (in_history sid dateRange) (JsMap.values (attendance st)) in
  let presentCount := count (has_status "present") records in
  let lateCount := count (has_status "late") records in
  let totalRecords := Z.of_nat (List.length records) in
  getStudentAttendancePercentage st sid dateRange
  = (if totalRecords =? 0 then Num.of_Z 0
     else Num.mul (Num.div (Num.of_Z (presentCount + lateCount)) (Num.of_Z totalRecords))
                  (Num.of_Z 100))
  /\ getStudentAttendancePercentage history_store "s1" None
     = S754_finite false 4691249611844266 (-46)
  /\ Num.strictly_between (6666 # 100) (6667 # 100)
       (getStudentAttendancePercentage history_store "s1" None) = true
  /\ getStudentAttendancePercentage history_store "nobody" None = S754_zero false.
Proof.
  assert (Hgen : forall st sid dateRange,
    getStudentAttendancePercentage st sid dateRange
    = (let records := filter (in_history sid dateRange) (JsMap.values (attendance st)) in
       if Z.of_nat (List.length records) =? 0 then Num.of_Z 0
       else Num.mul
              (Num.div
                 (Num.of_Z (count (has_status "present") records
                            + count (has_status "late") records))
                 (Num.of_Z (Z.of_nat (List.length records))))
              (Num.of_Z 100))).
  { clear. intros st sid dateRange. unfold getStudentAttendancePercentage.
    rewrite getAttendanceHistory_count.
    rewrite getAttendanceHistory_unfold, Array_sort_length.
    cbv zeta.
    rewrite (count_either _ _ _ present_not_late).
    destruct (List.length _) eqn:E; reflexivity. }
  intros records presentCount lateCount totalRecords.
  split; [apply Hgen|].
  rewrite !Hgen. vm_compute. repeat split.
Qed.

(** ** getAttendanceStats *)

Section StatsFacts.

Context {P : Platform}.

Lemma filter_ext_eq {A} (p q : A -> bool) l :
  (forall x, p x = q x) -> filter p l = filter q l.
Proof.
  intros H. induction l as [|x l IH]; simpl; [reflexivity|].
  now rewrite H, IH.
Qed.

Lemma class_filter_scope st className :
  getStudents st
    (if truthy className
     then Some {| filter_className := className; filter_section := None |}
     else None)
  = Array_sort by_name
      (filter (student_in_scope className) (JsMap.values (students st))).
Proof.
  rewrite getStudents_unfold. f_equal. apply filter_ext_eq. intros s.
  unfold student_in_scope, truthy, matches_filters, field_matches.
  destruct className as [c|]; [|reflexivity].
  destruct (c =? "")%string eqn:E; cbn [negb filter_className filter_section];
    [reflexivity|].
  now rewrite E, andb_true_r.
Qed.

Lemma student_ids_has (p : Student.t -> bool) (x : string) l :
  existsb (String.eqb x) (map Student.id (filter p l))
  = existsb (fun s => p s && (Student.id s =? x)%string) l.
Proof.
  induction l as [|s l IH]; simpl; [reflexivity|].
  destruct (p s); simpl; rewrite IH; [|reflexivity].
  now rewrite (String.eqb_sym x).
Qed.

Lemma getAttendanceByDate_unfold st D className :
  getAttendanceByDate st D className
  = filter (record_in_scope st D className) (JsMap.values (attendance st)).
Proof.
  unfold getAttendanceByDate, record_in_scope.
  destruct className as [c|]; simpl.
  - destruct (c =? "")%string; simpl.
    + apply filter_ext_eq. intros a. now rewrite andb_true_r.
    + rewrite filter_twice. apply filter_ext_eq. intros a.
      now rewrite student_ids_has.
  - apply filter_ext_eq. intros a. now rewrite andb_true_r.
Qed.

Lemma getAttendanceStats_unfold st D className :
  getAttendanceStats st D className
  = (let scope := filter (student_in_scope className) (JsMap.values (students st)) in
     let records :=
       filter (record_in_scope st D className) (JsMap.values (attendance st)) in
     let total := Z.of_nat (List.length scope) in
     {| totalStudents := total;
        present := count (has_status "present") records;
        absent := count (has_status "absent") records
                  + (total - Z.of_nat (List.length records));
        late := count (has_status "late") records;
        attendanceRate :=
          if 0 <? total
          then Num.mul (Num.div (Num.of_Z (count (has_status "present") records))
                                (Num.of_Z total))
                       (Num.of_Z 100)
          else Num.of_Z 0 |}).
Proof.
  unfold getAttendanceStats.
  rewrite class_filter_scope, getAttendanceByDate_unfold, Array_sort_length.
  reflexivity.
Qed.

End StatsFacts.

(** C3. For every date and optional class filter, [getAttendanceStats]
    returns as [totalStudents] the number of students matching the filter,
    as [present] and [late] the numbers of matching records for the date
    with that status, as [absent] the recorded absences plus
    [totalStudents] minus the number of matching records for the date, and
    as [attendanceRate] the double [present / totalStudents * 100], or 0
    when [totalStudents] is 0.  For the class of three students with two
    present records it returns 3, 2, 1, 0 and the double nearest below
    200/3, between 66.66 and 66.67. *)
Theorem getAttendanceStats_formula
        (P : Platform) (st : MemStorage) (D : string) (className : option string) :
  let scope := filter (student_in_scope className) (JsMap.values (students st)) in
  let records := filter (record_in_scope st D className) (JsMap.values (attendance st)) in
  let r := getAttendanceStats st D className in
  (totalStudents r = Z.of_nat (List.length scope)
   /\ present r = count (has_status "present") records
   /\ late r = count (has_status "late") records
   /\ absent r
      = count (has_status "absent") records
        + (totalStudents r - Z.of_nat (List.length records))
   /\ attendanceRate r
      = if totalStudents r =? 0 then Num.of_Z 0
        else Num.mul (Num.div (Num.of_Z (present r)) (Num.of_Z (totalStudents r)))
                     (Num.of_Z 100))
  /\ getAttendanceStats example_store "2026-11-03" (Some "12")
     = {| totalStudents := 3; present := 2; absent := 1; late := 0;
          attendanceRate := S754_finite false 4691249611844266 (-46) |}
  /\ Num.strictly_between (6666 # 100) (6667 # 100)
       (attendanceRate (getAttendanceStats example_store "2026-11-03" (Some "12")))
     = true.
Proof.
  intros scope records r. subst r. split.
  - rewrite getAttendanceStats_unfold. cbv zeta.
    cbn [totalStudents present late absent attendanceRate].
    repeat split.
    destruct (List.length (filter (student_in_scope className) _)); reflexivity.
  - rewrite !getAttendanceStats_unfold. vm_compute. split; reflexivity.
Qed.

(** ** The students map in reachable stores *)

Section JsMapFacts.

Variable V : Type.

Lemma get_In (m : JsMap.t V) k v : JsMap.get m k = Some v -> In (k, v) m.
Proof.
  induction m as [|[k' v'] m IH]; simpl; [discriminate|].
  destruct (String.eqb_spec k' k) as [->|_].
  - intros [= ->]. now left.
  - intros H. right. now apply IH.
Qed.

Lemma set_In (m : JsMap.t V) k v k' v' :
  In (k', v') (JsMap.set m k v) -> (k' = k /\ v' = v) \/ In (k', v') m.
Proof.
  induction m as [|[k0 v0] m IH]; simpl.
  - intros [[= <- <-]|[]]. now left.
  - destruct (String.eqb_spec k0 k) as [->|_]; simpl.
    + intros [[= <- <-]|H]; [now left|right; now right].
    + intros [H|H]; [right; now left|].
      destruct (IH H) as [?|?]; [now left|right; now right].
Qed.

Lemma set_keys_In (m : JsMap.t V) k v k' :
  In k' (JsMap.keys (JsMap.set m k v)) -> k' = k \/ In k' (JsMap.keys m).
Proof.
  unfold JsMap.keys. intros H. apply in_map_iff in H as [[k0 v0] [<- H]].
  apply set_In in H as [[-> _]|H]; [now left|right].
  apply in_map_iff. now exists (k0, v0).
Qed.

Lemma set_keys_NoDup (m : JsMap.t V) k v :
  NoDup (JsMap.keys m) -> NoDup (JsMap.keys (JsMap.set m k v)).
Proof.
  induction m as [|[k0 v0] m IH]; simpl; intros HN.
  - constructor; [intros []|constructor].
  - inversion HN as [|? ? Hnot HN']; subst.
    destruct (String.eqb_spec k0 k) as [->|Hne]; simpl.
    + now constructor.
    + constructor; [|now apply IH].
      intros Hin. apply set_keys_In in Hin as [->|Hin]; [now apply Hne|now apply Hnot].
Qed.

Lemma remove_In (m : JsMap.t V) k e : In e (JsMap.remove m k) -> In e m.
Proof.
  induction m as [|[k0 v0] m IH]; simpl; [tauto|].
  destruct (k0 =? k)%string; simpl; [tauto|].
  intros [H|H]; [now left|right; now apply IH].
Qed.

Lemma remove_keys_In (m : JsMap.t V) k k' :
  In k' (JsMap.keys (JsMap.remove m k)) -> In k' (JsMap.keys m).
Proof.
  unfold JsMap.keys. intros H. apply in_map_iff in H as [e [<- H]].
  apply in_map, (remove_In _ _ _ H).
Qed.

Lemma remove_keys_NoDup (m : JsMap.t V) k :
  NoDup (JsMap.keys m) -> NoDup (JsMap.keys (JsMap.remove m k)).
Proof.
  induction m as [|[k0 v0] m IH]; simpl; intros HN; [constructor|].
  inversion HN as [|? ? Hnot HN']; subst.
  destruct (k0 =? k)%string; simpl; [assumption|].
  constructor; [|now apply IH].
  intros Hin. now apply Hnot, remove_keys_In with k.
Qed.

(** Once deleted, a key is no longer in the map. *)
Lemma remove_gone (m : JsMap.t V) k :
  NoDup (JsMap.keys m) -> ~ In k (JsMap.keys (JsMap.remove m k)).
Proof.
  induction m as [|[k0 v0] m IH]; simpl; intros HN; [tauto|].
  inversion HN as [|? ? Hnot HN']; subst.
  destruct (String.eqb_spec k0 k) as [->|Hne]; simpl; [assumption|].
  intros [H|H]; [now apply Hne|now apply IH].
Qed.

End JsMapFacts.

Lemma students_wf_set m k s :
  students_wf m -> Student.id s = k -> students_wf (JsMap.set m k s).
Proof.
  intros [HN Hid] Hs. split; [now apply set_keys_NoDup|].
  intros k' s' H. apply set_In in H as [[-> ->]|H]; [assumption|now apply Hid].
Qed.

Lemma students_wf_remove m k : students_wf m -> students_wf (JsMap.remove m k).
Proof.
  intros [HN Hid]. split; [now apply remove_keys_NoDup|].
  intros k' s' H. apply Hid, (remove_In _ _ _ H).
Qed.

Lemma students_wf_init ids d : students_wf (students (initializeDefaultData ids d)).
Proof.
  unfold initializeDefaultData, sampleStudents. cbn [students fold_left].
  repeat apply students_wf_set; try reflexivity.
  split; [constructor|intros k s []].
Qed.

Lemma step_students_wf st st' :
  step st st' -> students_wf (students st) -> students_wf (students st').
Proof.
  intros Hstep Hwf. destruct Hstep as [env ins st|id updates st|id st|env ins st].
  - apply students_wf_set; [assumption|reflexivity].
  - unfold updateStudent.
    destruct (JsMap.get (students st) id) as [student|] eqn:E; [|assumption].
    apply students_wf_set; [assumption|].
    apply get_In in E. simpl. now apply (proj2 Hwf).
  - now apply students_wf_remove.
  - assumption.
Qed.

Lemma reachable_students_wf st0 st :
  reachable st0 st -> students_wf (students st0) -> students_wf (students st).
Proof.
  induction 1 as [|st st' _ IH Hstep]; intros Hwf; [assumption|].
  eapply step_students_wf; eauto.
Qed.

Lemma reachable_trans st0 st1 st2 :
  reachable st0 st1 -> reachable st1 st2 -> reachable st0 st2.
Proof.
  intros H01 H12. induction H12 as [|st st' _ IH Hstep]; [assumption|].
  eapply reach_step; eauto.
Qed.

(** ** deleteStudent *)

(** C8. In every store reachable from the initial one, deleting a student
    leaves no student with that identifier in any [getStudents] result,
    whatever the filter, and leaves the attendance records as they were:
    the history query keyed on the deleted identifier returns the same
    records, hence the same number of them, as before the deletion. *)
Theorem deleteStudent_keeps_attendance
        (P : Platform) (ids : SeedIds) (d : Date) (st : MemStorage) (id : string) :
  reachable (initializeDefaultData ids d) st ->
  let st' := snd (deleteStudent id st) in
  (forall filters s, In s (getStudents st' filters) -> Student.id s <> id)
  /\ attendance st' = attendance st
  /\ (forall dateRange,
        getAttendanceHistory st' id dateRange = getAttendanceHistory st id dateRange)
  /\ (forall dateRange,
        List.length (getAttendanceHistory st' id dateRange)
        = List.length (getAttendanceHistory st id dateRange)).
Proof.
  intros Hreach st'.
  assert (Hwf : students_wf (students st)).
  { eapply reachable_students_wf; [exact Hreach|apply students_wf_init]. }
  assert (Hst' : students st' = JsMap.remove (students st) id) by reflexivity.
  assert (Hatt : attendance st' = attendance st) by reflexivity.
  split; [|split; [exact Hatt|split]].
  - intros filters s Hin Heq.
    rewrite getStudents_unfold, Array_sort_In, filter_In in Hin.
    destruct Hin as [Hin _]. rewrite Hst' in Hin.
    unfold JsMap.values in Hin. apply in_map_iff in Hin as [[k s0] [Hs Hin]].
    simpl in Hs. subst s0.
    pose proof (proj2 (students_wf_remove id Hwf) _ _ Hin) as Hk.
    apply (@remove_gone _ (students st) id (proj1 Hwf)).
    apply in_map_iff. exists (k, s). split; [simpl; congruence|assumption].
  - intros dateRange. unfold getAttendanceHistory. now rewrite Hatt.
  - intros dateRange. unfold getAttendanceHistory. now rewrite Hatt.
Qed.

Lemma deleteStudent_keeps_attendance_witness :
  reachable example_store example_store
  /\ List.length (@getAttendanceHistory example_platform
                    (snd (deleteStudent "s1" example_store)) "s1" None)
     = List.length (@getAttendanceHistory example_platform example_store "s1" None).
Proof.
  split.
  - apply reach_here.
  - exact (proj2 (proj2 (proj2
             (@deleteStudent_keeps_attendance example_platform example_seed
                example_date example_store "s1" (reach_here _)))) None).
Defined.

(** ** A negative absent count *)

(** Every student can be deleted, one [DELETE /api/students/:id] at a time. *)
Lemma reach_clear_students st : reachable st (with_students st JsMap.empty).
Proof.
  destruct st as [us ss att cs]. unfold with_students. simpl.
  induction ss as [|[k s] ss IH].
  - apply reach_here.
  - eapply reachable_trans; [|exact IH].
    eapply reach_step; [apply reach_here|].
    pose proof (step_deleteStudent k
                  {| users := us; students := (k, s) :: ss;
                     attendance := att; classes := cs |}) as Hstep.
    unfold deleteStudent, JsMap.delete, with_students in Hstep. simpl in Hstep.
    now rewrite String.eqb_refl in Hstep.
Qed.

Lemma string_cons_neq c s : (s =? String c s)%string = false.
Proof.
  apply String.eqb_neq. intros H.
  apply (f_equal String.length) in H. simpl in H. lia.
Qed.

(** A record set into a map none of whose values passes a test is the only
    value that passes it. *)
Lemma filter_values_set {V} (p : V -> bool) (m : JsMap.t V) k v :
  p v = true ->
  (forall v', In v' (JsMap.values m) -> p v' = false) ->
  filter p (JsMap.values (JsMap.set m k v)) = [v].
Proof.
  intros Hv. induction m as [|[k0 v0] m IH]; simpl; intros Hm.
  - now rewrite Hv.
  - destruct (k0 =? k)%string; simpl.
    + rewrite Hv. f_equal.
      assert (Hrest : forall v', In v' (JsMap.values m) -> p v' = false)
        by (intros v' H; apply Hm; now right).
      clear -Hrest. induction m as [|[k1 v1] m IH]; simpl; [reflexivity|].
      rewrite (Hrest v1) by now left. apply IH. intros v' H. apply Hrest. now right.
    + rewrite (Hm v0) by now left. apply IH. intros v' H. apply Hm. now right.
Qed.

Lemma seeded_attendance_today ids d a :
  In a (JsMap.values (attendance (initializeDefaultData ids d))) ->
  Attendance.date a = split_T_0 (toISOString d).
Proof.
  unfold initializeDefaultData, sampleStudents. simpl.
  destruct (attendance1_id ids =? attendance2_id ids)%string; simpl;
    intuition; subst; reflexivity.
Qed.

(** Started on an empty store, the three requests alone give the count. *)
Example absent_negative_on_orphan_store (P : Platform) :
  reachable empty_store orphan_store
  /\ absent (getAttendanceStats orphan_store "2026-11-03" None) = -1.
Proof.
  split.
  - unfold orphan_store, mark.
    eapply reach_step; [|apply step_deleteStudent].
    eapply reach_step; [|apply step_createAttendance].
    eapply reach_step; [|apply step_createStudent].
    apply reach_here.
  - rewrite getAttendanceStats_unfold. reflexivity.
Qed.

(** C10. [getAttendanceStats] does not keep [absent] non-negative.  From
    the store the constructor builds, whatever identifiers it drew, the
    routes reach a store in which, with no class filter, the statistics of
    some date have [absent = -1]: after the students are deleted, a student
    is created, marked present for a date, and deleted; the record stays
    and counts against a total of zero students. *)
Theorem absent_count_can_be_negative (P : Platform) (ids : SeedIds) (d : Date) :
  exists st D,
    reachable (initializeDefaultData ids d) st
    /\ totalStudents (getAttendanceStats st D None) = 0
    /\ present (getAttendanceStats st D None) = 1
    /\ absent (getAttendanceStats st D None) = -1.
Proof.
  set (st0 := initializeDefaultData ids d).
  set (D := String "x" (split_T_0 (toISOString d))).
  set (env := {| uuid := "new"; now := d |}).
  set (ins := {| InsertStudent.admissionNo := "APS004"; InsertStudent.name := "New";
                 InsertStudent.className := "12"; InsertStudent.section := "A";
                 InsertStudent.rollNo := "03"; InsertStudent.email := None;
                 InsertStudent.contactNo := None; InsertStudent.parentContact := None;
                 InsertStudent.photoUrl := None;
                 InsertStudent.faceDescriptor := None |}).
  set (rec := {| InsertAttendance.studentId := "new"; InsertAttendance.date := D;
                 InsertAttendance.status := "present";
                 InsertAttendance.method := Some "manual";
                 InsertAttendance.markedBy := None |}).
  set (st1 := with_students st0 JsMap.empty).
  set (st2 := snd (createStudent env ins st1)).
  set (envA := {| uuid := "mark"; now := d |}).
  set (st3 := snd (createAttendance envA rec st2)).
  set (st4 := snd (deleteStudent "new" st3)).
  exists st4, D.
  assert (Hreach : reachable st0 st4).
  { eapply reach_step; [|apply step_deleteStudent].
    eapply reach_step; [|apply step_createAttendance].
    eapply reach_step; [|apply step_createStudent].
    apply reach_clear_students. }
  assert (Hstudents : students st4 = []) by reflexivity.
  assert (Hrecords :
            filter (record_in_scope st4 D None) (JsMap.values (attendance st4))
            = [fst (createAttendance envA rec st2)]).
  { change (attendance st4)
      with (JsMap.set (attendance st0) "mark" (fst (createAttendance envA rec st2))).
    apply filter_values_set.
    - unfold record_in_scope. simpl. now rewrite String.eqb_refl.
    - intros a Ha. unfold record_in_scope.
      rewrite (seeded_attendance_today _ _ _ Ha).
      subst D. now rewrite string_cons_neq. }
  split; [exact Hreach|].
  rewrite getAttendanceStats_unfold. cbv zeta.
  cbn [totalStudents present absent].
  rewrite Hrecords, Hstudents. repeat split.
Qed.

(** ** The attendance routes *)

(** The face route below its confidence threshold. *)
Lemma face_below_threshold env st sid c :
  confidence_in_schema c = true ->
  Num.ltb c (Num.of_Z 80) = true ->
  run (post_attendance_face env (face_body sid c)) st
  = (LowConfidenceError, {| storage := st; calls := [] |}).
Proof.
  intros Hc Hlt.
  unfold run, post_attendance_face, face_body, faceRecognitionSchema_parse.
  cbn [FaceBody.studentId FaceBody.imageData FaceBody.confidence].
  rewrite Hc, Hlt. reflexivity.
Qed.

Lemma face_at_or_above_threshold env st sid c :
  confidence_in_schema c = true ->
  Num.ltb c (Num.of_Z 80) = false ->
  fst (run (post_attendance_face env (face_body sid c)) st) <> LowConfidenceError
  /\ exists more,
       calls (snd (run (post_attendance_face env (face_body sid c)) st))
       = Call_getStudent (Some sid) :: more.
Proof.
  intros Hc Hlt.
  unfold run, post_attendance_face, face_body, faceRecognitionSchema_parse.
  cbn [FaceBody.studentId FaceBody.imageData FaceBody.confidence].
  rewrite Hc, Hlt. unfold bind, storage_getStudent. simpl.
  destruct (getStudent st sid) as [student|]; simpl.
  - unfold storage_getAttendance. simpl.
    destruct (getAttendance st (Student.id student) _); simpl.
    + split; [discriminate|eexists; reflexivity].
    + split; [discriminate|eexists; reflexivity].
  - split; [discriminate|eexists; reflexivity].
Qed.

(** A body the schema refuses, a confidence outside 0..100 included, is
    answered as a failed recognition, also without a call to the store. *)
Lemma face_outside_schema env st body :
  faceRecognitionSchema_parse body = None ->
  run (post_attendance_face env body) st
  = ({| status := 400; payload := Json_message "Face recognition failed" |},
     {| storage := st; calls := [] |}).
Proof.
  unfold run, post_attendance_face. intros ->. reflexivity.
Qed.

(** At 80 the student is looked up and, unmarked so far, marked by face. *)
Example face_confidence_80_accepted :
  let result :=
    run (post_attendance_face (example_env "f1") (face_body "s3" (Num.of_Z 80)))
        example_store in
  status (fst result) = 200
  /\ option_map Attendance.method
       (getAttendance (storage (snd result)) "s3" "2026-11-03")
     = Some (Some "face").
Proof. vm_compute. split; reflexivity. Qed.

(** At 79 nothing is recorded. *)
Example face_confidence_79_rejected :
  run (post_attendance_face (example_env "f1") (face_body "s3" (Num.of_Z 79)))
      example_store
  = (LowConfidenceError, {| storage := example_store; calls := [] |}).
Proof. vm_compute. reflexivity. Qed.

(** *** The manual route and its siblings *)

(** [POST /api/attendance] creates a record for every body the schema
    admits; [createAttendance] is its only call to the store. *)
Lemma post_attendance_always_creates env body ins st :
  insertAttendanceSchema_parse body = Some ins ->
  run (post_attendance env body) st
  = ({| status := 201;
        payload := Json_attendance (fst (createAttendance env ins st)) |},
     {| storage := snd (createAttendance env ins st);
        calls := [Call_createAttendance ins] |}).
Proof.
  unfold run, post_attendance. intros ->. reflexivity.
Qed.

Lemma find_some_of_In {A} (p : A -> bool) l x :
  In x l -> p x = true -> find p l <> None.
Proof.
  induction l as [|y l IH]; simpl; [tauto|].
  intros [->|Hin] Hp.
  - now rewrite Hp.
  - destruct (p y); [discriminate|now apply IH].
Qed.

Lemma set_values_In {V} (m : JsMap.t V) k v : In v (JsMap.values (JsMap.set m k v)).
Proof.
  induction m as [|[k0 v0] m IH]; simpl; [now left|].
  destruct (k0 =? k)%string; simpl; [now left|now right].
Qed.

(** A record just created is found by the point lookup on its pair. *)
Lemma getAttendance_after_create env ins st :
  getAttendance (snd (createAttendance env ins st))
                (InsertAttendance.studentId ins) (InsertAttendance.date ins)
  <> None.
Proof.
  unfold getAttendance, Array_find, createAttendance. simpl.
  eapply find_some_of_In; [apply set_values_In|].
  simpl. now rewrite !String.eqb_refl.
Qed.

(** The face route refuses an identifier that resolves to no student and a
    student already marked today, and leaves the store as it was. *)
Lemma face_rejects_unknown_and_marked env st sid c :
  confidence_in_schema c = true ->
  Num.ltb c (Num.of_Z 80) = false ->
  let result := run (post_attendance_face env (face_body sid c)) st in
  (getStudent st sid = None ->
   fst result = NotFoundError /\ storage (snd result) = st)
  /\ (forall student,
        getStudent st sid = Some student ->
        getAttendance st (Student.id student) (split_T_0 (toISOString (now env)))
        <> None ->
        fst result = DuplicateError /\ storage (snd result) = st).
Proof.
  intros Hc Hlt.
  unfold run, post_attendance_face, face_body, faceRecognitionSchema_parse.
  cbn [FaceBody.studentId FaceBody.imageData FaceBody.confidence].
  rewrite Hc, Hlt. unfold bind, storage_getStudent, storage_getAttendance. simpl.
  split.
  - intros ->. simpl. now split.
  - intros student -> Hsome. simpl.
    destruct (getAttendance st (Student.id student) _); [now split|contradiction].
Qed.

(** The QR route does the same. *)
Lemma qr_rejects_unknown_and_marked (P : Platform) env st qrData sid :
  JSON_parse_studentId qrData = Some (Some sid) ->
  let body := {| QrBody.qrData := Some qrData; QrBody.method := Some "qr" |} in
  let result := run (post_attendance_qr env body) st in
  (getStudent st sid = None ->
   fst result = NotFoundError /\ storage (snd result) = st)
  /\ (forall student,
        getStudent st sid = Some student ->
        getAttendance st (Student.id student) (split_T_0 (toISOString (now env)))
        <> None ->
        fst result = DuplicateError /\ storage (snd result) = st).
Proof.
  unfold run, post_attendance_qr, qrAttendanceSchema_parse. simpl.
  intros ->. unfold bind, storage_getStudent, storage_getAttendance. simpl.
  split.
  - intros ->. simpl. now split.
  - intros student -> Hsome. simpl.
    destruct (getAttendance st (Student.id student) _); [now split|contradiction].
Qed.

(** C1, on the code.  Two [POST /api/attendance] for the student "s3" and
    the date 2026-11-03 are both answered 201 Created, neither with
    [DuplicateError], and the store then holds two attendance records for
    that pair: the manual route inserts without the lookup that the QR and
    face routes make first. *)
Theorem manual_marking_twice_both_created :
  let body := manual_body "s3" "2026-11-03" "present" in
  let first := run (post_attendance (example_env "m1") body) example_store in
  let second := run (post_attendance (example_env "m2") body) (storage (snd first)) in
  count (same_pair "s3" "2026-11-03") (JsMap.values (attendance example_store)) = 0
  /\ status (fst first) = 201
  /\ status (fst second) = 201
  /\ fst second <> DuplicateError
  /\ calls (snd second)
     = [Call_createAttendance
          {| InsertAttendance.studentId := "s3";
             InsertAttendance.date := "2026-11-03";
             InsertAttendance.status := "present";
             InsertAttendance.method := Some "manual";
             InsertAttendance.markedBy := None |}]
  /\ count (same_pair "s3" "2026-11-03")
           (JsMap.values (attendance (storage (snd second)))) = 2.
Proof.
  vm_compute. repeat split; discriminate.
Qed.

(** C2, on the code.  A [POST /api/attendance] whose [studentId] resolves
    to no student is answered 201 Created, not [NotFoundError], and the
    record is stored: the manual route never calls [getStudent]. *)
Theorem manual_marking_unknown_student_created :
  let body := manual_body "ghost" "2026-11-03" "present" in
  let result := run (post_attendance (example_env "m1") body) example_store in
  getStudent example_store "ghost" = None
  /\ status (fst result) = 201
  /\ fst result <> NotFoundError
  /\ option_map Attendance.id
       (getAttendance (storage (snd result)) "ghost" "2026-11-03")
     = Some "m1"
  /\ List.length (JsMap.values (attendance (storage (snd result))))
     = S (List.length (JsMap.values (attendance example_store))).
Proof.
  vm_compute. repeat split; discriminate.
Qed.

(** The face route marks a student it finds unmarked today. *)
Lemma face_marks_unmarked env st sid c student :
  confidence_in_schema c = true ->
  Num.ltb c (Num.of_Z 80) = false ->
  getStudent st sid = Some student ->
  getAttendance st (Student.id student) (split_T_0 (toISOString (now env))) = None ->
  let result := run (post_attendance_face env (face_body sid c)) st in
  status (fst result) = 200
  /\ storage (snd result) = snd (createAttendance env (face_insert env student) st).
Proof.
  intros Hc Hlt Hstudent Hnone.
  unfold run, post_attendance_face, face_body, faceRecognitionSchema_parse.
  cbn [FaceBody.studentId FaceBody.imageData FaceBody.confidence].
  rewrite Hc, Hlt.
  unfold bind, storage_getStudent, storage_getAttendance. simpl.
  rewrite Hstudent. simpl. rewrite Hnone. simpl. now split.
Qed.

(** After a marking by face, a second one for the same student on the same
    day is refused. *)
Lemma face_second_marking_rejected env1 env2 st sid c student :
  confidence_in_schema c = true ->
  Num.ltb c (Num.of_Z 80) = false ->
  getStudent st sid = Some student ->
  getAttendance st (Student.id student) (split_T_0 (toISOString (now env1))) = None ->
  toISOString (now env2) = toISOString (now env1) ->
  let first := run (post_attendance_face env1 (face_body sid c)) st in
  let second := run (post_attendance_face env2 (face_body sid c)) (storage (snd first)) in
  status (fst first) = 200
  /\ fst second = DuplicateError
  /\ storage (snd second) = storage (snd first).
Proof.
  intros Hc Hge Hstudent Hnone Htoday first second.
  destruct (@face_marks_unmarked env1 st sid c student Hc Hge Hstudent Hnone)
    as [H200 Hstore].
  split; [exact H200|].
  subst second first. rewrite Hstore.
  apply (proj2 (@face_rejects_unknown_and_marked env2 _ sid c Hc Hge) student).
  - exact Hstudent.
  - rewrite Htoday. apply (getAttendance_after_create env1 (face_insert env1 student) st).
Qed.

(** ** The report route *)

(** A body that asks for no encoding, or for one the schema does not list,
    is refused by the route before any row is computed. *)
Lemma report_format_behind_schema (P : Platform) sheet_to_csv env body st :
  match ReportBody.format body with
  | Some fmt => one_of report_formats fmt = false
  | None => True
  end ->
  post_reports_generate sheet_to_csv env body st
  = {| status := 400; payload := Json_message "Failed to generate report" |}.
Proof.
  unfold post_reports_generate, reportGenerationSchema_parse, report_formats.
  destruct (ReportBody.type body), (ReportBody.dateRange body),
    (ReportBody.format body) as [fmt|]; try reflexivity.
  intros ->. now rewrite andb_false_r.
Qed.

(** ** The confidence threshold of the face route *)

Lemma face_parse_body sid c :
  faceRecognitionSchema_parse (face_body sid c)
  = if confidence_in_schema c
    then Some (sid, "data:image/jpeg;base64,", c) else None.
Proof. reflexivity. Qed.

(** The face route on a stored student not yet marked today: the answer,
    the store and the calls. *)
Lemma face_marks_unmarked_full env st sid c student :
  confidence_in_schema c = true ->
  Num.ltb c (Num.of_Z 80) = false ->
  getStudent st sid = Some student ->
  getAttendance st (Student.id student) (split_T_0 (toISOString (now env))) = None ->
  run (post_attendance_face env (face_body sid c)) st
  = ({| status := 200;
        payload := Json_marked "Attendance marked via face recognition"
                     (summary student)
                     (fst (createAttendance env (face_insert env student) st))
                     (Some c) |},
     {| storage := snd (createAttendance env (face_insert env student) st);
        calls := [Call_getStudent (Some sid);
                  Call_getAttendance (Student.id student)
                                     (split_T_0 (toISOString (now env)));
                  Call_createAttendance (face_insert env student)] |}).
Proof.
  intros Hc Hlt Hstudent Hnone.
  unfold run, post_attendance_face. rewrite face_parse_body, Hc, Hlt.
  unfold bind, storage_getStudent, storage_getAttendance, storage_createAttendance.
  cbn [storage calls logged fst snd]. rewrite Hstudent.
  cbn [storage calls logged fst snd]. rewrite Hnone. reflexivity.
Qed.

(** C5, as the code has it.  The face route answers [LowConfidenceError]
    exactly on a confidence the schema admits (0 to 100) that is below 80;
    it returns an error without a single call to the store exactly when
    the confidence is outside the schema or below 80, and then the store
    is as it was; outside the schema the answer is "Face recognition
    failed".  From 80 on, within the schema, a stored student not yet
    marked today is answered 200 and a record of method face is stored.
    On the seeded store 79 is rejected with nothing recorded and 80 is
    accepted with a third record. *)
Theorem face_confidence_threshold_in_schema
        (env : Env) (st : MemStorage) (sid : string) (c : Num.t) :
  let result := run (post_attendance_face env (face_body sid c)) st in
  let today := split_T_0 (toISOString (now env)) in
  (fst result = LowConfidenceError
   <-> confidence_in_schema c = true /\ Num.ltb c (Num.of_Z 80) = true)
  /\ (rejected_before_store result
      <-> confidence_in_schema c = false \/ Num.ltb c (Num.of_Z 80) = true)
  /\ (rejected_before_store result -> storage (snd result) = st)
  /\ (confidence_in_schema c = false ->
      fst result
      = {| status := 400; payload := Json_message "Face recognition failed" |})
  /\ (confidence_in_schema c = true ->
      Num.ltb c (Num.of_Z 80) = false ->
      forall student,
        getStudent st sid = Some student ->
        getAttendance st (Student.id student) today = None ->
        fst result
        = {| status := 200;
             payload := Json_marked "Attendance marked via face recognition"
                          (summary student)
                          (fst (createAttendance env (face_insert env student) st))
                          (Some c) |}
        /\ storage (snd result)
           = snd (createAttendance env (face_insert env student) st)
        /\ Attendance.method (fst (createAttendance env (face_insert env student) st))
           = Some "face"
        /\ getAttendance (storage (snd result)) (Student.id student) today <> None)
  /\ run (post_attendance_face (example_env "f1") (face_body "s3" (Num.of_Z 79)))
         example_store
     = (LowConfidenceError, {| storage := example_store; calls := [] |})
  /\ (let accepted :=
        run (post_attendance_face (example_env "f1") (face_body "s3" (Num.of_Z 80)))
            example_store in
      status (fst accepted) = 200
      /\ option_map Attendance.method
           (getAttendance (storage (snd accepted)) "s3" "2026-11-03")
         = Some (Some "face")
      /\ List.length (JsMap.values (attendance (storage (snd accepted)))) = 3%nat).
Proof.
  cbv zeta.
  split; [|split; [|split; [|split; [|split; [|split]]]]].
  - destruct (confidence_in_schema c) eqn:Hc.
    + destruct (Num.ltb c (Num.of_Z 80)) eqn:E.
      * rewrite (@face_below_threshold env st sid c Hc E). now split.
      * split; [|intros [_ [=]]].
        intros H. exfalso.
        now apply (proj1 (@face_at_or_above_threshold env st sid c Hc E)).
    + rewrite (@face_outside_schema env st (face_body sid c))
        by (rewrite face_parse_body, Hc; reflexivity).
      split; [discriminate|intros [[=] _]].
  - unfold rejected_before_store.
    destruct (confidence_in_schema c) eqn:Hc.
    + destruct (Num.ltb c (Num.of_Z 80)) eqn:E.
      * rewrite (@face_below_threshold env st sid c Hc E).
        split; [now right|intros _; split; [discriminate|reflexivity]].
      * destruct (@face_at_or_above_threshold env st sid c Hc E) as [_ [more Hcalls]].
        rewrite Hcalls. split; [intros [_ [=]]|intros [[=]|[=]]].
    + rewrite (@face_outside_schema env st (face_body sid c))
        by (rewrite face_parse_body, Hc; reflexivity).
      split; [now left|intros _; split; [discriminate|reflexivity]].
  - unfold rejected_before_store. intros [_ Hcalls].
    destruct (confidence_in_schema c) eqn:Hc.
    + destruct (Num.ltb c (Num.of_Z 80)) eqn:E.
      * now rewrite (@face_below_threshold env st sid c Hc E).
      * destruct (@face_at_or_above_threshold env st sid c Hc E) as [_ [more Hmore]].
        rewrite Hmore in Hcalls. discriminate.
    + now rewrite (@face_outside_schema env st (face_body sid c))
        by (rewrite face_parse_body, Hc; reflexivity).
  - intros Hc.
    now rewrite (@face_outside_schema env st (face_body sid c))
      by (rewrite face_parse_body, Hc; reflexivity).
  - intros Hc Hge student Hstudent Hnone.
    rewrite (@face_marks_unmarked_full env st sid c student Hc Hge Hstudent Hnone).
    cbn [fst snd storage].
    split; [reflexivity|split; [reflexivity|split; [reflexivity|]]].
    apply (getAttendance_after_create env (face_insert env student) st).
  - vm_compute. reflexivity.
  - vm_compute. repeat split.
Qed.

(** C5, as it was worded, fails outside the schema: a confidence of 150
    is not below 80, yet the route returns an error without any call to
    the store. *)
Lemma face_confidence_150_refused_before_store :
  run (post_attendance_face (example_env "f1") (face_body "s3" (Num.of_Z 150)))
      example_store
  = ({| status := 400; payload := Json_message "Face recognition failed" |},
     {| storage := example_store; calls := [] |})
  /\ Num.ltb (Num.of_Z 150) (Num.of_Z 80) = false
  /\ ~ (rejected_before_store
          (run (post_attendance_face (example_env "f1")
                  (face_body "s3" (Num.of_Z 150))) example_store)
        <-> Num.ltb (Num.of_Z 150) (Num.of_Z 80) = true).
Proof.
  assert (Hrun : run (post_attendance_face (example_env "f1")
                        (face_body "s3" (Num.of_Z 150))) example_store
                 = ({| status := 400;
                       payload := Json_message "Face recognition failed" |},
                    {| storage := example_store; calls := [] |}))
    by (apply face_outside_schema; reflexivity).
  split; [exact Hrun|split; [reflexivity|]].
  rewrite Hrun. intros [Hiff _].
  assert (Hfalse : Num.ltb (Num.of_Z 150) (Num.of_Z 80) = true).
  { apply Hiff. split; [discriminate|reflexivity]. }
  discriminate Hfalse.
Qed.

(** ** The format of a report request *)

(** C7, on the code.  On the seeded store, a report request for November
    and class 12 that names no format, or the format json, is answered 400
    "Failed to generate report": the schema lists excel, csv and pdf and
    makes the format required.  The same request with format csv is
    answered with the encoding of one row per student, and the last branch
    of the handler, which no request reaches, would send those entries as
    they are. *)
Theorem structured_report_request_refused (sheet_to_csv : list SheetRow -> string) :
  let ask := fun format =>
    @post_reports_generate example_platform sheet_to_csv (example_env "r")
      (november_report format) example_store in
  let data :=
    @reportData example_platform example_store ("2026-11-01", "2026-11-30") (Some "12") in
  ask None = {| status := 400; payload := Json_message "Failed to generate report" |}
  /\ ask (Some "json")
     = {| status := 400; payload := Json_message "Failed to generate report" |}
  /\ ask (Some "csv")
     = {| status := 200; payload := Csv_file (sheet_to_csv (map sheet_row data)) |}
  /\ List.length data = 3%nat
  /\ send_report sheet_to_csv (example_env "r") "json" ("2026-11-01", "2026-11-30") data
     = {| status := 200; payload := Json_report data |}.
Proof.
  cbv zeta. repeat split; reflexivity.
Qed.

(* ================================================================== *)
(** * Further properties of the store *)

(** ** Lookup after [set] and [remove] *)

Section JsMapLookup.

Variable V : Type.

Lemma get_set_same (m : JsMap.t V) k v : JsMap.get (JsMap.set m k v) k = Some v.
Proof.
  induction m as [|[k0 v0] m IH]; simpl.
  - now rewrite String.eqb_refl.
  - destruct (String.eqb_spec k0 k) as [->|Hk]; simpl.
    + now rewrite String.eqb_refl.
    + destruct (String.eqb_spec k0 k); [contradiction|exact IH].
Qed.

Lemma get_set_other (m : JsMap.t V) k v k' :
  k' <> k -> JsMap.get (JsMap.set m k v) k' = JsMap.get m k'.
Proof.
  intros Hne. induction m as [|[k0 v0] m IH]; simpl.
  - destruct (String.eqb_spec k k'); [congruence|reflexivity].
  - destruct (String.eqb_spec k0 k) as [->|Hk]; simpl.
    + destruct (String.eqb_spec k k'); [congruence|reflexivity].
    + destruct (k0 =? k')%string; [reflexivity|exact IH].
Qed.

Lemma get_remove_other (m : JsMap.t V) k k' :
  k' <> k -> JsMap.get (JsMap.remove m k) k' = JsMap.get m k'.
Proof.
  intros Hne. induction m as [|[k0 v0] m IH]; simpl; [reflexivity|].
  destruct (String.eqb_spec k0 k) as [->|Hk]; simpl.
  - destruct (String.eqb_spec k k'); [congruence|reflexivity].
  - destruct (k0 =? k')%string; [reflexivity|exact IH].
Qed.

Lemma get_None_keys (m : JsMap.t V) k :
  JsMap.get m k = None <-> ~ In k (JsMap.keys m).
Proof.
  induction m as [|[k0 v0] m IH]; simpl; [tauto|].
  destruct (String.eqb_spec k0 k) as [->|Hk].
  - split; [discriminate|intros H; exfalso; apply H; now left].
  - rewrite IH. unfold JsMap.keys. tauto.
Qed.

Lemma get_remove_same (m : JsMap.t V) k :
  NoDup (JsMap.keys m) -> JsMap.get (JsMap.remove m k) k = None.
Proof. intros HN. apply get_None_keys. now apply remove_gone. Qed.

Lemma remove_absent (m : JsMap.t V) k :
  JsMap.get m k = None -> JsMap.remove m k = m.
Proof.
  induction m as [|[k0 v0] m IH]; simpl; [reflexivity|].
  destruct (k0 =? k)%string; [discriminate|].
  intros H. now rewrite IH.
Qed.

(** A key not yet in the map goes to its end. *)
Lemma set_fresh (m : JsMap.t V) k v :
  ~ In k (JsMap.keys m) -> JsMap.set m k v = (m ++ [(k, v)])%list.
Proof.
  induction m as [|[k0 v0] m IH]; simpl; intros Hnot; [reflexivity|].
  destruct (String.eqb_spec k0 k) as [->|Hk]; [exfalso; apply Hnot; now left|].
  rewrite IH; [reflexivity|]. intros H. apply Hnot. now right.
Qed.


Lemma values_app (m m' : JsMap.t V) :
  JsMap.values (m ++ m')%list = (JsMap.values m ++ JsMap.values m')%list.
Proof. apply map_app. Qed.

End JsMapLookup.

Lemma with_students_same st : with_students st (students st) = st.
Proof. now destruct st. Qed.

Lemma find_app_last {A} (p : A -> bool) l x :
  find p (l ++ [x])%list
  = match find p l with
    | Some y => Some y
    | None => if p x then Some x else None
    end.
Proof.
  induction l as [|y l IH]; simpl; [reflexivity|].
  destruct (p y); [reflexivity|exact IH].
Qed.

Lemma NoDup_map_filter {A B} (f : A -> B) (p : A -> bool) l :
  NoDup (map f l) -> NoDup (map f (filter p l)).
Proof.
  induction l as [|x l IH]; simpl; intros HN; [constructor|].
  inversion HN as [|? ? Hnot HN']; subst.
  destruct (p x); simpl; [|now apply IH].
  constructor; [|now apply IH].
  intros Hin. apply Hnot.
  apply in_map_iff in Hin as [y [Hy Hin]]. apply filter_In in Hin as [Hin _].
  apply in_map_iff. now exists y.
Qed.

Lemma students_wf_ids m :
  students_wf m -> map Student.id (JsMap.values m) = JsMap.keys m.
Proof.
  intros [_ Hid]. unfold JsMap.values, JsMap.keys.
  rewrite map_map. apply map_ext_in. intros [k s] Hin. simpl. now apply Hid.
Qed.

(** ** createStudent, getStudent, getStudentByAdmissionNo *)

(** X1. A student just created is found under the identifier drawn for it,
    with that identifier, the QR text made from its admission number and
    empty contact fields turned into null; the lookup of every other
    identifier and the attendance records are as before. *)
Theorem createStudent_then_getStudent
        (env : Env) (ins : InsertStudent.t) (st : MemStorage) :
  let created := fst (createStudent env ins st) in
  let st' := snd (createStudent env ins st) in
  getStudent st' (uuid env) = Some created
  /\ Student.id created = uuid env
  /\ Student.qrCode created = Some ("QR_" ++ InsertStudent.admissionNo ins)
  /\ (InsertStudent.email ins = Some "" -> Student.email created = None)
  /\ (forall id, id <> uuid env -> getStudent st' id = getStudent st id)
  /\ attendance st' = attendance st.
Proof.
  cbv zeta. unfold getStudent, createStudent. cbn [fst snd students with_students
    attendance Student.id Student.qrCode Student.email].
  split; [apply get_set_same|].
  split; [reflexivity|split; [reflexivity|split; [|split; [|reflexivity]]]].
  - intros ->. reflexivity.
  - intros id Hne. now apply get_set_other.
Qed.

(** X2. [createStudent] does not look for the admission number: when a
    student with the same admission number is already stored, the lookup
    by admission number keeps returning the older one, and the new student
    is reached by identifier only; when there is none, it returns the new
    student. *)
Theorem createStudent_admissionNo_first_wins
        (env : Env) (ins : InsertStudent.t) (st : MemStorage) :
  ~ In (uuid env) (JsMap.keys (students st)) ->
  let created := fst (createStudent env ins st) in
  let st' := snd (createStudent env ins st) in
  getStudentByAdmissionNo st' (InsertStudent.admissionNo ins)
  = match getStudentByAdmissionNo st (InsertStudent.admissionNo ins) with
    | Some older => Some older
    | None => Some created
    end
  /\ getStudent st' (uuid env) = Some created.
Proof.
  intros Hfresh. cbv zeta.
  split; [|unfold getStudent, createStudent; apply get_set_same].
  unfold getStudentByAdmissionNo, Array_find, createStudent.
  cbn [fst snd students with_students Student.id].
  rewrite set_fresh by exact Hfresh. rewrite values_app. cbn [JsMap.values map snd].
  rewrite find_app_last. cbn [Student.admissionNo].
  now rewrite String.eqb_refl.
Qed.

Lemma createStudent_admissionNo_first_wins_witness :
  ~ In "s9" (JsMap.keys (students example_store))
  /\ option_map Student.id
       (getStudentByAdmissionNo
          (snd (createStudent (example_env "s9")
                  (new_student "APS001" "Second Aarav" "12" "A") example_store))
          "APS001")
     = Some "s1".
Proof.
  assert (Hfresh : ~ In "s9" (JsMap.keys (students example_store))).
  { vm_compute. intros [H|[H|[H|[]]]]; discriminate. }
  split; [exact Hfresh|].
  exact (f_equal (option_map Student.id)
           (proj1 (@createStudent_admissionNo_first_wins (example_env "s9")
                     (new_student "APS001" "Second Aarav" "12" "A")
                     example_store Hfresh))).
Defined.

(** ** updateStudent *)


(** ** deleteStudent *)

(** X4. [deleteStudent] returns true exactly when the identifier was
    stored; otherwise the store is left as it was, and the route answers 404
    "Student not found" exactly then.  The other students are untouched. *)
Theorem deleteStudent_reports_existence (id : string) (st : MemStorage) :
  (fst (deleteStudent id st) = true <-> getStudent st id <> None)
  /\ (getStudent st id = None -> snd (deleteStudent id st) = st)
  /\ (fst (delete_student_route id st) = (404, "Student not found")
      <-> getStudent st id = None)
  /\ (forall id', id' <> id ->
        getStudent (snd (deleteStudent id st)) id' = getStudent st id').
Proof.
  unfold delete_student_route, deleteStudent, JsMap.delete, JsMap.has, getStudent.
  cbn [fst snd students with_students].
  split; [|split; [|split]].
  - destruct (JsMap.get (students st) id); split; congruence.
  - intros H. rewrite (remove_absent _ _ H). apply with_students_same.
  - destruct (JsMap.get (students st) id); cbn [negb fst]; split;
      congruence.
  - intros id' Hne. now apply get_remove_other.
Qed.

(** X5. In every store reachable from the initial one a deleted student is
    gone for the lookup by identifier, and deleting it a second time
    returns false and changes nothing. *)
Theorem deleteStudent_twice
        (ids : SeedIds) (d : Date) (st : MemStorage) (id : string) :
  reachable (initializeDefaultData ids d) st ->
  let st' := snd (deleteStudent id st) in
  getStudent st' id = None
  /\ deleteStudent id st' = (false, st').
Proof.
  intros Hreach st'.
  assert (Hwf : students_wf (students st)).
  { eapply reachable_students_wf; [exact Hreach|apply students_wf_init]. }
  assert (Hgone : getStudent st' id = None).
  { unfold getStudent. subst st'. unfold deleteStudent, JsMap.delete.
    cbn [snd students with_students]. apply get_remove_same, (proj1 Hwf). }
  split; [exact Hgone|].
  unfold getStudent in Hgone.
  unfold deleteStudent at 1, JsMap.delete, JsMap.has.
  rewrite Hgone, (remove_absent _ _ Hgone), with_students_same. reflexivity.
Qed.

Lemma deleteStudent_twice_witness :
  reachable example_store example_store
  /\ deleteStudent "s1" (snd (deleteStudent "s1" example_store))
     = (false, snd (deleteStudent "s1" example_store)).
Proof.
  split.
  - apply reach_here.
  - exact (proj2 (@deleteStudent_twice example_seed example_date example_store "s1"
                    (reach_here _))).
Defined.

(** ** bulkCreateStudents *)

Lemma bulkCreateStudents_cons env ins rest st :
  bulkCreateStudents ((env, ins) :: rest) st
  = (fst (createStudent env ins st)
       :: fst (bulkCreateStudents rest (snd (createStudent env ins st))),
     snd (bulkCreateStudents rest (snd (createStudent env ins st)))).
Proof.
  cbn [bulkCreateStudents].
  destruct (createStudent env ins st) as [student st1].
  cbn [fst snd]. destruct (bulkCreateStudents rest st1) as [created st2].
  reflexivity.
Qed.

Lemma bulkCreateStudents_other_ids l : forall st id,
  ~ In id (map (fun e => uuid (fst e)) l) ->
  getStudent (snd (bulkCreateStudents l st)) id = getStudent st id.
Proof.
  induction l as [|[env ins] rest IH]; intros st id Hnot; [reflexivity|].
  rewrite bulkCreateStudents_cons. cbn [snd].
  rewrite IH by (intros H; apply Hnot; now right).
  unfold getStudent, createStudent. cbn [snd students with_students Student.id].
  apply get_set_other. intros ->. apply Hnot. now left.
Qed.

(** X6. [bulkCreateStudents] is [createStudent] applied to the elements
    from first to last: the store it leaves is the one those calls leave
    one after the other, and the students it returns are the ones they
    return, in the order of the input.  Every student stored under an
    identifier that is not drawn is found as before; users, classes and
    attendance records are untouched; and when the identifiers drawn are
    distinct every returned student is stored under its own. *)
Theorem bulkCreateStudents_in_order
        (l : list (Env * InsertStudent.t)) (st : MemStorage) :
  let created := fst (bulkCreateStudents l st) in
  let st' := snd (bulkCreateStudents l st) in
  st' = fold_left (fun s e => snd (createStudent (fst e) (snd e) s)) l st
  /\ created = map (fun e => fst (createStudent (fst e) (snd e) st)) l
  /\ map Student.id created = map (fun e => uuid (fst e)) l
  /\ map Student.admissionNo created
     = map (fun e => InsertStudent.admissionNo (snd e)) l
  /\ (forall id, ~ In id (map (fun e => uuid (fst e)) l) ->
                 getStudent st' id = getStudent st id)
  /\ attendance st' = attendance st
  /\ users st' = users st
  /\ classes st' = classes st
  /\ (NoDup (map (fun e => uuid (fst e)) l) ->
      forall s, In s created -> getStudent st' (Student.id s) = Some s).
Proof.
  cbv zeta. revert st.
  induction l as [|[env ins] rest IH]; intros st.
  - cbn. repeat split; try reflexivity. intros _ s [].
  - rewrite bulkCreateStudents_cons. cbn [fst snd map fold_left].
    destruct (IH (snd (createStudent env ins st)))
      as [Hfold [Hcreated [Hid [Hadm [Hother [Hatt [Husers [Hclasses Hget]]]]]]]].
    split; [exact Hfold|].
    split; [now rewrite Hcreated|].
    split; [now rewrite Hid|split; [now rewrite Hadm|]].
    split; [|split; [exact Hatt|split; [exact Husers|split; [exact Hclasses|]]]].
    + intros id Hnot.
      apply (bulkCreateStudents_other_ids ((env, ins) :: rest) st id) in Hnot.
      rewrite bulkCreateStudents_cons in Hnot. exact Hnot.
    + intros HN s [<-|Hin].
      * inversion HN as [|? ? Hnot _]; subst.
        cbn [Student.id createStudent fst].
        rewrite (bulkCreateStudents_other_ids rest _ _ Hnot).
        unfold getStudent, createStudent. cbn [snd students with_students Student.id].
        apply get_set_same.
      * inversion HN; subst. now apply Hget.
Qed.

(** ** Identifiers in reachable stores *)

(** X7. In every store reachable from the initial one, no two students
    listed by [getStudents] share an identifier, whatever the filter. *)
Theorem getStudents_ids_distinct
        (P : Platform) (ids : SeedIds) (d : Date) (st : MemStorage)
        (filters : option StudentFilters) :
  reachable (initializeDefaultData ids d) st ->
  NoDup (map Student.id (getStudents st filters)).
Proof.
  intros Hreach.
  assert (Hwf : students_wf (students st)).
  { eapply reachable_students_wf; [exact Hreach|apply students_wf_init]. }
  rewrite getStudents_unfold.
  eapply Permutation_NoDup.
  - apply Permutation_map, Permutation_sym, Array_sort_perm.
  - apply NoDup_map_filter. rewrite (students_wf_ids Hwf). exact (proj1 Hwf).
Qed.

Lemma getStudents_ids_distinct_witness :
  reachable example_store example_store
  /\ NoDup (map Student.id (@getStudents example_platform example_store class12)).
Proof.
  split.
  - apply reach_here.
  - exact (@getStudents_ids_distinct example_platform example_seed example_date
             example_store class12 (reach_here _)).
Defined.

(* ================================================================== *)
(** * Further properties of the attendance records *)

Lemma count_zero_find {A} (p : A -> bool) l : count p l = 0 <-> find p l = None.
Proof.
  induction l as [|x l IH]; [split; reflexivity|].
  rewrite count_cons. simpl. pose proof (count_nonneg p l).
  destruct (p x); [split; [lia|discriminate]|].
  rewrite <- IH. split; lia.
Qed.

Lemma same_pair_iff s d a :
  same_pair s d a = true <-> Attendance.studentId a = s /\ Attendance.date a = d.
Proof. unfold same_pair. now rewrite andb_true_iff, !String.eqb_eq. Qed.

Lemma getAttendance_pair_count (st : MemStorage) (studentId date : string) :
  getAttendance st studentId date = None
  <-> count (same_pair studentId date) (JsMap.values (attendance st)) = 0.
Proof.
  unfold getAttendance, Array_find. symmetry.
  apply (count_zero_find (same_pair studentId date)).
Qed.

Lemma getAttendance_of_pair_sound (st : MemStorage) (studentId date : string) a :
  getAttendance st studentId date = Some a ->
  In a (JsMap.values (attendance st))
  /\ Attendance.studentId a = studentId /\ Attendance.date a = date.
Proof.
  unfold getAttendance, Array_find. intros H. apply find_some in H as [Hin Hp].
  split; [exact Hin|]. now apply (same_pair_iff studentId date a).
Qed.

(** ** getAttendance *)

(** X8. The point lookup answers undefined exactly when the store holds no
    record for the (student, date) pair; a record it returns is a stored
    record of that pair. *)
Theorem getAttendance_of_pair (st : MemStorage) (studentId date : string) :
  (getAttendance st studentId date = None
   <-> count (same_pair studentId date) (JsMap.values (attendance st)) = 0)
  /\ (forall a,
        getAttendance st studentId date = Some a ->
        In a (JsMap.values (attendance st))
        /\ Attendance.studentId a = studentId
        /\ Attendance.date a = date).
Proof.
  unfold getAttendance, Array_find. split.
  - symmetry. apply (count_zero_find (same_pair studentId date)).
  - intros a H. apply find_some in H as [Hin Hp].
    split; [exact Hin|]. now apply (same_pair_iff studentId date a).
Qed.

(** ** createAttendance and getAttendanceHistory *)

(** X9. Under an identifier not yet a key of the attendance map,
    [createAttendance] adds exactly its record to the history of the
    student it names: that history is the old one with the new record in
    it.  The record carries the given student, date and status, the
    identifier drawn and the clock read; the histories of the other
    students, under any range, and the students are unchanged. *)
Theorem createAttendance_extends_history
        (P : Platform) (env : Env) (ins : InsertAttendance.t) (st : MemStorage) :
  ~ In (uuid env) (JsMap.keys (attendance st)) ->
  let created := fst (createAttendance env ins st) in
  let st' := snd (createAttendance env ins st) in
  Permutation
    (getAttendanceHistory st' (InsertAttendance.studentId ins) None)
    (created :: getAttendanceHistory st (InsertAttendance.studentId ins) None)
  /\ Attendance.id created = uuid env
  /\ Attendance.studentId created = InsertAttendance.studentId ins
  /\ Attendance.date created = InsertAttendance.date ins
  /\ Attendance.status created = InsertAttendance.status ins
  /\ Attendance.timestamp created = Some (now env)
  /\ (forall sid dateRange,
        sid <> InsertAttendance.studentId ins ->
        getAttendanceHistory st' sid dateRange = getAttendanceHistory st sid dateRange)
  /\ students st' = students st.
Proof.
  intros Hfresh. cbv zeta.
  assert (Hvalues : JsMap.values (attendance (snd (createAttendance env ins st)))
                    = (JsMap.values (attendance st)
                       ++ [fst (createAttendance env ins st)])%list).
  { unfold createAttendance. cbn [fst snd attendance with_attendance Attendance.id].
    rewrite set_fresh by exact Hfresh. now rewrite values_app. }
  split; [|repeat split].
  - rewrite !getAttendanceHistory_unfold, Hvalues, filter_app.
    eapply perm_trans; [apply Array_sort_perm|].
    eapply perm_trans; [|apply perm_skip, Permutation_sym, Array_sort_perm].
    cbn [filter]. unfold in_history at 2.
    unfold createAttendance. cbn [fst Attendance.studentId].
    rewrite String.eqb_refl. cbn [andb].
    apply Permutation_sym, Permutation_cons_append.
  - intros sid dateRange Hne.
    rewrite !getAttendanceHistory_unfold, Hvalues, filter_app.
    cbn [filter]. unfold in_history at 2.
    unfold createAttendance. cbn [fst Attendance.studentId].
    destruct (String.eqb_spec (InsertAttendance.studentId ins) sid) as [E|_];
      [congruence|].
    cbn [andb]. now rewrite app_nil_r.
Qed.

Lemma createAttendance_extends_history_witness :
  ~ In "r9" (JsMap.keys (attendance history_store))
  /\ Permutation
       (@getAttendanceHistory example_platform
          (mark "r9" "s1" "2026-11-04" "present" history_store) "s1" None)
       (fst (createAttendance (example_env "r9")
               {| InsertAttendance.studentId := "s1";
                  InsertAttendance.date := "2026-11-04";
                  InsertAttendance.status := "present";
                  InsertAttendance.method := Some "manual";
                  InsertAttendance.markedBy := None |} history_store)
        :: @getAttendanceHistory example_platform history_store "s1" None).
Proof.
  assert (Hfresh : ~ In "r9" (JsMap.keys (attendance history_store))).
  { vm_compute. intros [H|[H|[H|[]]]]; discriminate. }
  split; [exact Hfresh|].
  exact (proj1 (@createAttendance_extends_history example_platform (example_env "r9")
                  {| InsertAttendance.studentId := "s1";
                     InsertAttendance.date := "2026-11-04";
                     InsertAttendance.status := "present";
                     InsertAttendance.method := Some "manual";
                     InsertAttendance.markedBy := None |} history_store Hfresh)).
Defined.

(** X10. Under a consistent comparator [getAttendanceHistory] returns the
    records newest date first in the host's collation, and records whose
    dates tie keep the order in which the store holds them. *)
Theorem getAttendanceHistory_newest_first
        (P : Platform) (st : MemStorage) (sid : string)
        (dateRange : option (string * string)) :
  consistent_comparator localeCompare ->
  let result := getAttendanceHistory st sid dateRange in
  StronglySorted
    (fun a b => localeCompare (Attendance.date b) (Attendance.date a) <= 0) result
  /\ forall x,
       filter (fun y => localeCompare (Attendance.date y) (Attendance.date x) =? 0)
              result
       = filter (fun y => localeCompare (Attendance.date y) (Attendance.date x) =? 0)
                (filter (in_history sid dateRange) (JsMap.values (attendance st))).
Proof.
  intros [Hflip Htrans] result. subst result.
  rewrite getAttendanceHistory_unfold.
  assert (Hf : forall a b : Attendance.t,
             Z.sgn (by_date_desc b a) = - Z.sgn (by_date_desc a b))
    by (intros a b; apply Hflip).
  assert (Ht : forall a b c : Attendance.t,
             by_date_desc a b <= 0 -> by_date_desc b c <= 0 -> by_date_desc a c <= 0).
  { intros a b c Hab Hbc. unfold by_date_desc in *. now apply Htrans with (Attendance.date b). }
  split.
  - apply (@Array_sort_sorted _ by_date_desc Hf Ht).
  - intros x. apply (@Array_sort_stable _ by_date_desc Hf Ht x).
Qed.

Lemma getAttendanceHistory_newest_first_witness :
  consistent_comparator (@localeCompare example_platform)
  /\ map Attendance.date (@getAttendanceHistory example_platform history_store "s1" None)
     = ["2026-11-03"; "2026-11-02"; "2026-11-01"]
  /\ StronglySorted
       (fun a b => @localeCompare example_platform
                     (Attendance.date b) (Attendance.date a) <= 0)
       (@getAttendanceHistory example_platform history_store "s1" None).
Proof.
  split; [exact ordinal_compare_consistent|split; [reflexivity|]].
  exact (proj1 (@getAttendanceHistory_newest_first example_platform history_store
                  "s1" None ordinal_compare_consistent)).
Defined.

(** ** getAttendanceByDate under a class filter *)

(** X11. In every store reachable from the initial one, once a student is
    deleted none of its attendance records is returned by the day query
    under a class filter, while the day query without a filter returns what
    it returned before. *)
Theorem deleted_student_out_of_class_queries
        (ids : SeedIds) (d : Date) (st : MemStorage) (id D c : string) :
  reachable (initializeDefaultData ids d) st ->
  c <> "" ->
  let st' := snd (deleteStudent id st) in
  (forall a, In a (getAttendanceByDate st' D (Some c)) -> Attendance.studentId a <> id)
  /\ getAttendanceByDate st' D None = getAttendanceByDate st D None.
Proof.
  intros Hreach Hc st'.
  assert (Hwf : students_wf (students st)).
  { eapply reachable_students_wf; [exact Hreach|apply students_wf_init]. }
  split; [|reflexivity].
  intros a Hin Heq. rewrite getAttendanceByDate_unfold in Hin.
  apply filter_In in Hin as [_ Hscope]. unfold record_in_scope in Hscope.
  apply andb_true_iff in Hscope as [_ Hscope].
  destruct (String.eqb_spec c "") as [|_]; [contradiction|].
  apply existsb_exists in Hscope as [s [Hs Hmatch]].
  apply andb_true_iff in Hmatch as [_ Hid]. apply String.eqb_eq in Hid.
  subst st'. unfold deleteStudent, JsMap.delete in Hs.
  cbn [snd students with_students] in Hs.
  unfold JsMap.values in Hs. apply in_map_iff in Hs as [[k s0] [Hk Hs]].
  simpl in Hk. subst s0.
  pose proof (proj2 (students_wf_remove id Hwf) _ _ Hs) as Hkey.
  apply (@remove_gone _ (students st) id (proj1 Hwf)).
  apply in_map_iff. exists (k, s). split; [simpl; congruence|exact Hs].
Qed.

Lemma deleted_student_out_of_class_queries_witness :
  reachable example_store example_store
  /\ "12" <> ""
  /\ (forall a,
        In a (getAttendanceByDate (snd (deleteStudent "s1" example_store))
                "2026-11-03" (Some "12")) ->
        Attendance.studentId a <> "s1").
Proof.
  split; [apply reach_here|split; [discriminate|]].
  exact (proj1 (@deleted_student_out_of_class_queries example_seed example_date
                  example_store "s1" "2026-11-03" "12" (reach_here _)
                  ltac:(discriminate))).
Defined.

(** ** getAttendanceStats when no pair is marked twice *)

Lemma count_pos_of_In {A} (p : A -> bool) l x :
  In x l -> p x = true -> 1 <= count p l.
Proof.
  induction l as [|y l IH]; [intros []|].
  rewrite count_cons. pose proof (count_nonneg p l).
  intros [->|Hin] Hp.
  - rewrite Hp. lia.
  - specialize (IH Hin Hp). destruct (p y); lia.
Qed.

Lemma day_unique_studentIds (D : string) (q : Attendance.t -> bool) l :
  (forall s, count (same_pair s D) l <= 1) ->
  (forall a, q a = true -> Attendance.date a = D) ->
  NoDup (map Attendance.studentId (filter q l)).
Proof.
  intros Hu Hq. induction l as [|a l IH]; [constructor|].
  assert (Hl : forall s, count (same_pair s D) l <= 1).
  { intros s. specialize (Hu s). rewrite count_cons in Hu.
    destruct (same_pair s D a); lia. }
  cbn [filter]. destruct (q a) eqn:Ea; [|now apply IH].
  cbn [map]. constructor; [|now apply IH].
  intros Hin. apply in_map_iff in Hin as [b [Hb Hin]].
  apply filter_In in Hin as [Hin Hqb].
  specialize (Hu (Attendance.studentId a)). rewrite count_cons in Hu.
  assert (Ha : same_pair (Attendance.studentId a) D a = true)
    by (apply same_pair_iff; split; [reflexivity|now apply Hq]).
  assert (Hb' : same_pair (Attendance.studentId a) D b = true)
    by (apply same_pair_iff; split; [exact Hb|now apply Hq]).
  pose proof (count_pos_of_In _ _ _ Hin Hb'). rewrite Ha in Hu. lia.
Qed.

Lemma count_le_length {A} (p : A -> bool) l : count p l <= Z.of_nat (List.length l).
Proof.
  induction l as [|x l IH]; [reflexivity|].
  rewrite count_cons. cbn [List.length]. rewrite Nat2Z.inj_succ.
  destruct (p x); lia.
Qed.

Lemma count_either_le {A} (p q : A -> bool) l :
  (forall x, p x && q x = false) ->
  count p l + count q l <= Z.of_nat (List.length l).
Proof.
  intros H. rewrite <- (count_either p q l H). apply count_le_length.
Qed.

(** X12. When no (student, date) pair has two records, the statistics
    under a non-empty class filter count at most one record per student of
    the class: the records of the day are no more than [totalStudents],
    so [absent] is not negative and [present + late] does not exceed
    [totalStudents]. *)
Theorem class_stats_absent_nonnegative
        (P : Platform) (st : MemStorage) (D c : string) :
  day_unique (attendance st) ->
  c <> "" ->
  let r := getAttendanceStats st D (Some c) in
  Z.of_nat (List.length (getAttendanceByDate st D (Some c))) <= totalStudents r
  /\ 0 <= absent r
  /\ present r + late r <= totalStudents r.
Proof.
  intros Hu Hc r. subst r.
  rewrite getAttendanceStats_unfold, getAttendanceByDate_unfold. cbv zeta.
  cbn [totalStudents absent present late].
  set (records := filter (record_in_scope st D (Some c)) (JsMap.values (attendance st))).
  set (scope := filter (student_in_scope (Some c)) (JsMap.values (students st))).
  assert (Hlen : (List.length records <= List.length scope)%nat).
  { rewrite <- (length_map Attendance.studentId records),
            <- (length_map Student.id scope).
    apply NoDup_incl_length.
    - apply (@day_unique_studentIds D); [intros s; apply Hu|].
      intros a Ha. unfold record_in_scope in Ha.
      apply andb_true_iff in Ha as [Ha _]. now apply String.eqb_eq.
    - intros sid Hin. apply in_map_iff in Hin as [a [<- Hin]].
      apply filter_In in Hin as [_ Hscope]. unfold record_in_scope in Hscope.
      apply andb_true_iff in Hscope as [_ Hscope].
      destruct (String.eqb_spec c "") as [|Hne]; [contradiction|].
      apply existsb_exists in Hscope as [s [Hs Hmatch]].
      apply andb_true_iff in Hmatch as [Hclass Hid]. apply String.eqb_eq in Hid.
      apply in_map_iff. exists s. split; [exact Hid|].
      apply filter_In. split; [exact Hs|].
      unfold student_in_scope, field_matches.
      destruct (String.eqb_spec c ""); [contradiction|exact Hclass]. }
  pose proof (count_nonneg (has_status "absent") records).
  pose proof (count_either_le _ _ records present_not_late).
  lia.
Qed.

Lemma example_store_day_unique : day_unique (attendance example_store).
Proof.
  intros s dte.
  set (l := JsMap.values (attendance example_store)). vm_compute in l. subst l.
  unfold count, same_pair. cbn [filter JsMap.values map snd Attendance.studentId
    Attendance.date].
  destruct (String.eqb_spec "s1" s) as [<-|]; cbn [andb].
  - destruct ("2026-11-03" =? dte)%string; cbn; lia.
  - destruct (("s2" =? s)%string && ("2026-11-03" =? dte)%string); cbn; lia.
Qed.

Lemma class_stats_absent_nonnegative_witness :
  day_unique (attendance example_store)
  /\ "12" <> ""
  /\ 0 <= absent (@getAttendanceStats example_platform example_store
                    "2026-11-03" (Some "12")).
Proof.
  split; [exact example_store_day_unique|split; [discriminate|]].
  exact (proj1 (proj2 (@class_stats_absent_nonnegative example_platform
                         example_store "2026-11-03" "12"
                         example_store_day_unique ltac:(discriminate)))).
Defined.

(** X13. Without a class filter, in a store reachable from the initial one
    where no (student, date) pair has two records and every record of the
    day belongs to a stored student, the records of the day are no more
    than the students and [absent] is not negative. *)
Theorem stats_absent_nonnegative_without_orphans
        (P : Platform) (ids : SeedIds) (d : Date) (st : MemStorage) (D : string) :
  reachable (initializeDefaultData ids d) st ->
  day_unique (attendance st) ->
  (forall a, In a (JsMap.values (attendance st)) ->
             Attendance.date a = D ->
             getStudent st (Attendance.studentId a) <> None) ->
  let r := getAttendanceStats st D None in
  Z.of_nat (List.length (getAttendanceByDate st D None)) <= totalStudents r
  /\ 0 <= absent r.
Proof.
  intros Hreach Hu Hres r. subst r.
  assert (Hwf : students_wf (students st)).
  { eapply reachable_students_wf; [exact Hreach|apply students_wf_init]. }
  rewrite getAttendanceStats_unfold, getAttendanceByDate_unfold. cbv zeta.
  cbn [totalStudents absent].
  set (records := filter (record_in_scope st D None) (JsMap.values (attendance st))).
  set (scope := filter (student_in_scope None) (JsMap.values (students st))).
  assert (Hlen : (List.length records <= List.length scope)%nat).
  { rewrite <- (length_map Attendance.studentId records),
            <- (length_map Student.id scope).
    apply NoDup_incl_length.
    - apply (@day_unique_studentIds D); [intros s; apply Hu|].
      intros a Ha. unfold record_in_scope in Ha.
      apply andb_true_iff in Ha as [Ha _]. now apply String.eqb_eq.
    - intros sid Hin. apply in_map_iff in Hin as [a [<- Hin]].
      apply filter_In in Hin as [Hin Hscope]. unfold record_in_scope in Hscope.
      apply andb_true_iff in Hscope as [Hdate _]. apply String.eqb_eq in Hdate.
      specialize (Hres a Hin Hdate). unfold getStudent in Hres.
      destruct (JsMap.get (students st) (Attendance.studentId a)) as [s|] eqn:E;
        [|congruence].
      apply get_In in E. apply in_map_iff. exists s.
      split; [now apply (proj2 Hwf)|].
      apply filter_In. split; [|reflexivity].
      unfold JsMap.values. apply in_map_iff.
      now exists (Attendance.studentId a, s). }
  pose proof (count_nonneg (has_status "absent") records).
  lia.
Qed.

Lemma stats_absent_nonnegative_without_orphans_witness :
  reachable example_store example_store
  /\ day_unique (attendance example_store)
  /\ 0 <= absent (@getAttendanceStats example_platform example_store "2026-11-03" None).
Proof.
  split; [apply reach_here|split; [exact example_store_day_unique|]].
  refine (proj2 (@stats_absent_nonnegative_without_orphans example_platform
                   example_seed example_date example_store "2026-11-03"
                   (reach_here _) example_store_day_unique _)).
  intros a Hin _. vm_compute in Hin.
  destruct Hin as [<-|[<-|[]]]; discriminate.
Defined.

(** X14. The three counts of [getAttendanceStats] and the records of the
    day whose status is none of present, absent, late add up to
    [totalStudents]: when every record of the day carries one of the three
    statuses, [present + absent + late = totalStudents]. *)
Theorem stats_buckets_sum
        (P : Platform) (st : MemStorage) (D : string) (className : option string) :
  let r := getAttendanceStats st D className in
  present r + absent r + late r
  + count other_status (getAttendanceByDate st D className)
  = totalStudents r.
Proof.
  cbv zeta. rewrite getAttendanceStats_unfold, getAttendanceByDate_unfold. cbv zeta.
  cbn [totalStudents absent present late].
  set (records := filter (record_in_scope st D className) (JsMap.values (attendance st))).
  assert (Hsplit : Z.of_nat (List.length records)
                   = count (has_status "present") records
                     + count (has_status "absent") records
                     + count (has_status "late") records
                     + count other_status records).
  { clearbody records. induction records as [|a l IH]; [reflexivity|].
    rewrite !count_cons. cbn [List.length]. rewrite Nat2Z.inj_succ, IH.
    set (c1 := count (has_status "present") l).
    set (c2 := count (has_status "absent") l).
    set (c3 := count (has_status "late") l).
    set (c4 := count other_status l).
    unfold other_status, has_status.
    destruct (String.eqb_spec (Attendance.status a) "present") as [E|_].
    { rewrite E.
      change ("present" =? "absent")%string with false.
      change ("present" =? "late")%string with false.
      cbn [orb negb]. lia. }
    destruct (String.eqb_spec (Attendance.status a) "absent") as [E|_].
    { rewrite E. change ("absent" =? "late")%string with false.
      cbn [orb negb]. lia. }
    destruct (String.eqb_spec (Attendance.status a) "late") as [E|_];
      cbn [orb negb]; lia. }
  lia.
Qed.

(** ** updateAttendance *)


(* ================================================================== *)
(** * Further properties of the routes *)

(** ** What a marking route does to the store *)

Lemma face_route_store env body st :
  let result := run (post_attendance_face env body) st in
  storage (snd result) = st
  \/ exists student,
       getAttendance st (Student.id student) (split_T_0 (toISOString (now env))) = None
       /\ storage (snd result) = snd (createAttendance env (face_insert env student) st).
Proof.
  cbv zeta. unfold run, post_attendance_face.
  destruct (faceRecognitionSchema_parse body) as [[[sid img] c]|]; [|now left].
  destruct (Num.ltb c (Num.of_Z 80)); [now left|].
  unfold bind, storage_getStudent, storage_getAttendance. cbn [storage calls logged fst snd].
  destruct (getStudent st sid) as [student|]; [|now left].
  cbn [storage logged].
  destruct (getAttendance st (Student.id student) _) eqn:E; [now left|].
  right. exists student. split; [exact E|reflexivity].
Qed.

Lemma qr_route_store (P : Platform) env body st :
  let result := run (post_attendance_qr env body) st in
  storage (snd result) = st
  \/ exists student,
       getAttendance st (Student.id student) (split_T_0 (toISOString (now env))) = None
       /\ storage (snd result) = snd (createAttendance env (qr_insert env student) st).
Proof.
  cbv zeta. unfold run, post_attendance_qr.
  destruct (qrAttendanceSchema_parse body) as [qrData|]; [|now left].
  destruct (JSON_parse_studentId qrData) as [sid|]; [|now left].
  unfold bind, storage_getStudent, storage_getAttendance. cbn [storage calls logged fst snd].
  destruct (match sid with Some id => getStudent st id | None => None end)
    as [student|]; [|now left].
  cbn [storage logged].
  destruct (getAttendance st (Student.id student) _) eqn:E; [now left|].
  right. exists student. split; [exact E|reflexivity].
Qed.

Lemma count_values_set {V} (p : V -> bool) (m : JsMap.t V) k v :
  count p (JsMap.values (JsMap.set m k v))
  <= count p (JsMap.values m) + (if p v then 1 else 0).
Proof.
  induction m as [|[k0 v0] m IH]; cbn [JsMap.set JsMap.values map snd].
  - rewrite count_cons. unfold count. cbn. lia.
  - destruct (k0 =? k)%string; cbn [JsMap.values map snd] in *;
      rewrite !count_cons.
    + pose proof (count_nonneg p (map snd m)). destruct (p v0), (p v); lia.
    + fold (JsMap.values (JsMap.set m k v)). fold (JsMap.values m). lia.
Qed.

(** Creating a record for a pair that has none keeps every pair at one
    record at most. *)
Lemma day_unique_create env ins st :
  day_unique (attendance st) ->
  getAttendance st (InsertAttendance.studentId ins) (InsertAttendance.date ins) = None ->
  day_unique (attendance (snd (createAttendance env ins st))).
Proof.
  intros Hu Hnone s dte.
  unfold createAttendance. cbn [snd attendance with_attendance Attendance.id].
  eapply Z.le_trans; [apply count_values_set|].
  destruct (same_pair s dte _) eqn:E.
  - apply same_pair_iff in E. cbn [Attendance.studentId Attendance.date] in E.
    destruct E as [<- <-].
    apply (proj1 (getAttendance_pair_count st _ _)) in Hnone. lia.
  - specialize (Hu s dte). lia.
Qed.

(** ** The QR and face routes keep one record per student and day *)

(** X16. Whatever the request, the QR route and the face route leave a
    store in which no (student, date) pair has two attendance records in
    that state: they insert only after the point lookup found nothing for
    the pair. *)
Theorem marking_routes_keep_day_unique
        (P : Platform) (env : Env) (st : MemStorage) :
  day_unique (attendance st) ->
  (forall body,
     day_unique (attendance (storage (snd (run (post_attendance_face env body) st)))))
  /\ (forall body,
        day_unique (attendance (storage (snd (run (post_attendance_qr env body) st))))).
Proof.
  intros Hu. split; intros body.
  - destruct (face_route_store env body st) as [->|[student [Hnone ->]]];
      [exact Hu|].
    now apply day_unique_create.
  - destruct (qr_route_store P env body st) as [->|[student [Hnone ->]]];
      [exact Hu|].
    now apply day_unique_create.
Qed.

Lemma marking_routes_keep_day_unique_witness :
  day_unique (attendance example_store)
  /\ day_unique
       (attendance
          (storage (snd (run (post_attendance_face (example_env "f1")
                               (face_body "s3" (Num.of_Z 90)))
                             example_store)))).
Proof.
  split; [exact example_store_day_unique|].
  exact (proj1 (@marking_routes_keep_day_unique example_platform (example_env "f1")
                  example_store example_store_day_unique)
               (face_body "s3" (Num.of_Z 90))).
Defined.

(** ** A second marking through the QR route *)

Lemma qr_marks_unmarked (P : Platform) env st qrData sid student :
  JSON_parse_studentId qrData = Some (Some sid) ->
  getStudent st sid = Some student ->
  getAttendance st (Student.id student) (split_T_0 (toISOString (now env))) = None ->
  run (post_attendance_qr env {| QrBody.qrData := Some qrData;
                                 QrBody.method := Some "qr" |}) st
  = ({| status := 200;
        payload := Json_marked "Attendance marked successfully" (summary student)
                     (fst (createAttendance env (qr_insert env student) st)) None |},
     {| storage := snd (createAttendance env (qr_insert env student) st);
        calls := [Call_getStudent (Some sid);
                  Call_getAttendance (Student.id student)
                                     (split_T_0 (toISOString (now env)));
                  Call_createAttendance (qr_insert env student)] |}).
Proof.
  intros Hparse Hstudent Hnone.
  unfold run, post_attendance_qr, qrAttendanceSchema_parse.
  cbn [QrBody.qrData QrBody.method]. rewrite String.eqb_refl, Hparse.
  unfold bind, storage_getStudent, storage_getAttendance, storage_createAttendance.
  cbn [storage calls logged fst snd]. rewrite Hstudent.
  cbn [storage calls logged fst snd]. rewrite Hnone. reflexivity.
Qed.

(** X17. A QR payload that resolves to a stored student not yet marked
    today is answered 200 with a record of that student, dated today, of
    status present and method qr, after three calls to the store; the same
    payload presented again at any later time of the same day is answered
    "Attendance already marked for today" and the store is not changed
    again. *)
Theorem qr_second_marking_rejected
        (P : Platform) (env1 env2 : Env) (st : MemStorage)
        (qrData sid : string) (student : Student.t) :
  JSON_parse_studentId qrData = Some (Some sid) ->
  getStudent st sid = Some student ->
  getAttendance st (Student.id student) (split_T_0 (toISOString (now env1))) = None ->
  split_T_0 (toISOString (now env2)) = split_T_0 (toISOString (now env1)) ->
  let body := {| QrBody.qrData := Some qrData; QrBody.method := Some "qr" |} in
  let first := run (post_attendance_qr env1 body) st in
  let second := run (post_attendance_qr env2 body) (storage (snd first)) in
  status (fst first) = 200
  /\ (exists a,
        payload (fst first)
        = Json_marked "Attendance marked successfully" (summary student) a None
        /\ Attendance.studentId a = Student.id student
        /\ Attendance.date a = split_T_0 (toISOString (now env1))
        /\ Attendance.status a = "present"
        /\ Attendance.method a = Some "qr"
        /\ getAttendance (storage (snd first)) (Student.id student)
             (split_T_0 (toISOString (now env1))) <> None)
  /\ List.length (calls (snd first)) = 3%nat
  /\ fst second = DuplicateError
  /\ storage (snd second) = storage (snd first).
Proof.
  intros Hparse Hstudent Hnone Htoday body first second.
  assert (Hfirst := qr_marks_unmarked P env1 st qrData Hparse Hstudent Hnone).
  fold body in Hfirst. fold first in Hfirst.
  assert (Hfound : getAttendance (snd (createAttendance env1 (qr_insert env1 student) st))
                     (Student.id student) (split_T_0 (toISOString (now env1))) <> None)
    by apply (getAttendance_after_create env1 (qr_insert env1 student) st).
  subst second. rewrite Hfirst. cbn [fst snd status payload storage calls].
  split; [reflexivity|split; [|split; [reflexivity|]]].
  - eexists. split; [reflexivity|]. repeat split. exact Hfound.
  - apply (proj2 (@qr_rejects_unknown_and_marked P env2 _ qrData sid Hparse) student).
    + exact Hstudent.
    + rewrite Htoday. exact Hfound.
Qed.

Lemma qr_second_marking_rejected_witness :
  @JSON_parse_studentId qr_example_platform rahul_payload = Some (Some "s3")
  /\ split_T_0 (toISOString example_afternoon) = split_T_0 (toISOString example_date)
  /\ toISOString example_afternoon <> toISOString example_date
  /\ fst (run (@post_attendance_qr qr_example_platform (afternoon_env "q2")
                 {| QrBody.qrData := Some rahul_payload; QrBody.method := Some "qr" |})
              (storage
                 (snd (run (@post_attendance_qr qr_example_platform (example_env "q1")
                              {| QrBody.qrData := Some rahul_payload;
                                 QrBody.method := Some "qr" |})
                           example_store))))
     = DuplicateError.
Proof.
  split; [reflexivity|split; [reflexivity|split; [discriminate|]]].
  refine (proj1 (proj2 (proj2 (proj2
            (@qr_second_marking_rejected qr_example_platform (example_env "q1")
               (afternoon_env "q2") example_store rahul_payload "s3" _
               eq_refl eq_refl eq_refl eq_refl))))).
Defined.

(** ** A second marking through the face route *)

(** X18. A face request of passing confidence for a stored student not
    yet marked today is answered 200 with a record of that student, dated
    today, of status present and method face; the same request again at
    any later time of the same day is answered "Attendance already marked
    for today" and the store is not changed again. *)
Theorem face_second_marking_refused
        (env1 env2 : Env) (st : MemStorage) (sid : string) (c : Num.t)
        (student : Student.t) :
  confidence_in_schema c = true ->
  Num.ltb c (Num.of_Z 80) = false ->
  getStudent st sid = Some student ->
  getAttendance st (Student.id student) (split_T_0 (toISOString (now env1))) = None ->
  split_T_0 (toISOString (now env2)) = split_T_0 (toISOString (now env1)) ->
  let first := run (post_attendance_face env1 (face_body sid c)) st in
  let second := run (post_attendance_face env2 (face_body sid c)) (storage (snd first)) in
  fst first
  = {| status := 200;
       payload := Json_marked "Attendance marked via face recognition"
                    (summary student)
                    (fst (createAttendance env1 (face_insert env1 student) st))
                    (Some c) |}
  /\ (exists a,
        getAttendance (storage (snd first)) (Student.id student)
          (split_T_0 (toISOString (now env1))) = Some a
        /\ Attendance.studentId a = Student.id student
        /\ Attendance.date a = split_T_0 (toISOString (now env1)))
  /\ Attendance.status (fst (createAttendance env1 (face_insert env1 student) st))
     = "present"
  /\ Attendance.method (fst (createAttendance env1 (face_insert env1 student) st))
     = Some "face"
  /\ storage (snd first) = snd (createAttendance env1 (face_insert env1 student) st)
  /\ fst second = DuplicateError
  /\ storage (snd second) = storage (snd first).
Proof.
  intros Hc Hge Hstudent Hnone Htoday first second.
  assert (Hfirst := @face_marks_unmarked_full env1 st sid c student Hc Hge Hstudent Hnone).
  fold first in Hfirst.
  assert (Hfound : getAttendance (snd (createAttendance env1 (face_insert env1 student) st))
                     (Student.id student) (split_T_0 (toISOString (now env1))) <> None)
    by apply (getAttendance_after_create env1 (face_insert env1 student) st).
  subst second. rewrite Hfirst. cbn [fst snd storage].
  split; [reflexivity|split; [|split; [reflexivity|split; [reflexivity|
    split; [reflexivity|]]]]].
  - destruct (getAttendance (snd (createAttendance env1 (face_insert env1 student) st))
                (Student.id student) _) as [a|] eqn:E; [|congruence].
    exists a. split; [reflexivity|].
    exact (proj2 (getAttendance_of_pair_sound _ _ _ E)).
  - apply (proj2 (@face_rejects_unknown_and_marked env2 _ sid c Hc Hge) student).
    + exact Hstudent.
    + rewrite Htoday. exact Hfound.
Qed.

Lemma face_second_marking_refused_witness :
  confidence_in_schema (Num.of_Z 80) = true
  /\ Num.ltb (Num.of_Z 80) (Num.of_Z 80) = false
  /\ split_T_0 (toISOString example_afternoon) = split_T_0 (toISOString example_date)
  /\ toISOString example_afternoon <> toISOString example_date
  /\ fst (run (post_attendance_face (afternoon_env "f2") (face_body "s3" (Num.of_Z 80)))
              (storage
                 (snd (run (post_attendance_face (example_env "f1")
                              (face_body "s3" (Num.of_Z 80)))
                           example_store))))
     = DuplicateError.
Proof.
  split; [reflexivity|split; [reflexivity|split; [reflexivity|split; [discriminate|]]]].
  refine (proj1 (proj2 (proj2 (proj2 (proj2 (proj2
            (@face_second_marking_refused (example_env "f1") (afternoon_env "f2")
               example_store "s3" (Num.of_Z 80) _
               eq_refl eq_refl eq_refl eq_refl eq_refl))))))).
Defined.

(** ** An identifier that resolves to no student *)

(** X19. The face route, given a confidence that passes, and the QR
    route, given a payload that parses, answer 404 "Student not found" to
    an identifier the store does not hold, after the single call
    [getStudent], and leave the store as it was. *)
Theorem marking_routes_unknown_student
        (P : Platform) (env : Env) (st : MemStorage)
        (sid qrData : string) (c : Num.t) :
  getStudent st sid = None ->
  confidence_in_schema c = true ->
  Num.ltb c (Num.of_Z 80) = false ->
  JSON_parse_studentId qrData = Some (Some sid) ->
  run (post_attendance_face env (face_body sid c)) st
  = (NotFoundError, {| storage := st; calls := [Call_getStudent (Some sid)] |})
  /\ run (post_attendance_qr env {| QrBody.qrData := Some qrData;
                                    QrBody.method := Some "qr" |}) st
     = (NotFoundError, {| storage := st; calls := [Call_getStudent (Some sid)] |}).
Proof.
  intros Hnone Hc Hlt Hparse. split.
  - unfold run, post_attendance_face, face_body, faceRecognitionSchema_parse.
    cbn [FaceBody.studentId FaceBody.imageData FaceBody.confidence].
    rewrite Hc, Hlt. unfold bind, storage_getStudent.
    cbn [storage calls logged]. rewrite Hnone. reflexivity.
  - unfold run, post_attendance_qr, qrAttendanceSchema_parse.
    cbn [QrBody.qrData QrBody.method]. rewrite String.eqb_refl, Hparse.
    unfold bind, storage_getStudent.
    cbn [storage calls logged]. rewrite Hnone. reflexivity.
Qed.

Lemma marking_routes_unknown_student_witness :
  getStudent example_store "ghost" = None
  /\ run (post_attendance_face (example_env "f1") (face_body "ghost" (Num.of_Z 95)))
         example_store
     = (NotFoundError,
        {| storage := example_store; calls := [Call_getStudent (Some "ghost")] |}).
Proof.
  split; [reflexivity|].
  exact (proj1 (@marking_routes_unknown_student example_platform (example_env "f1")
                  example_store "ghost" "ghost" (Num.of_Z 95)
                  eq_refl eq_refl eq_refl eq_refl)).
Defined.

(** ** A QR request the schema or the parser refuses *)

(** X20. A QR request without [method: "qr"] beside the payload, without
    a payload, or whose payload does not parse, is answered 400 "Invalid QR
    code or failed to mark attendance" before any call to the store. *)
Theorem qr_request_refused
        (P : Platform) (env : Env) (st : MemStorage) (body : QrBody.t) :
  QrBody.method body <> Some "qr"
  \/ QrBody.qrData body = None
  \/ (exists qrData, QrBody.qrData body = Some qrData
                     /\ JSON_parse_studentId qrData = None) ->
  run (post_attendance_qr env body) st
  = ({| status := 400;
        payload := Json_message "Invalid QR code or failed to mark attendance" |},
     {| storage := st; calls := [] |}).
Proof.
  unfold run, post_attendance_qr, qrAttendanceSchema_parse.
  intros [Hm|[Hd|[qrData [Hd Hparse]]]].
  - destruct (QrBody.qrData body); [|reflexivity].
    destruct (QrBody.method body) as [m|]; [|reflexivity].
    destruct (String.eqb_spec m "qr") as [->|_]; [congruence|reflexivity].
  - rewrite Hd. reflexivity.
  - rewrite Hd. destruct (QrBody.method body) as [m|]; [|reflexivity].
    destruct (m =? "qr")%string; [|reflexivity]. now rewrite Hparse.
Qed.

Lemma qr_request_refused_witness :
  QrBody.method {| QrBody.qrData := Some "s3"; QrBody.method := None |} <> Some "qr"
  /\ run (@post_attendance_qr example_platform (example_env "q1")
            {| QrBody.qrData := Some "s3"; QrBody.method := None |})
         example_store
     = ({| status := 400;
           payload := Json_message "Invalid QR code or failed to mark attendance" |},
        {| storage := example_store; calls := [] |}).
Proof.
  split; [discriminate|].
  apply (@qr_request_refused example_platform (example_env "q1") example_store
           {| QrBody.qrData := Some "s3"; QrBody.method := None |}).
  left. discriminate.
Defined.

(** ** The rows of a report *)

Lemma present_or_late_not_absent a :
  (has_status "present" a || has_status "late" a) && has_status "absent" a = false.
Proof.
  unfold has_status.
  destruct (String.eqb_spec (Attendance.status a) "absent") as [E|];
    [rewrite E; reflexivity|apply andb_false_r].
Qed.

(** X21. Every row of a report agrees with itself: its present days (late
    ones included) and absent days are counts within its total days, and
    its percentage is [Math.round] of [presentDays / totalDays * 100]
    computed from the row's own counts, 0 for a student without records in
    the range. *)
Theorem report_entry_consistent
        (P : Platform) (st : MemStorage) (dateRange : string * string)
        (className : option string) :
  Forall (fun r =>
            0 <= presentDays r
            /\ 0 <= absentDays r
            /\ presentDays r + absentDays r <= totalDays r
            /\ percentage r
               = Num.round
                   (if totalDays r =? 0 then Num.of_Z 0
                    else Num.mul (Num.div (Num.of_Z (presentDays r))
                                          (Num.of_Z (totalDays r)))
                                 (Num.of_Z 100))
            /\ (totalDays r = 0 -> percentage r = S754_zero false))
         (reportData st dateRange className).
Proof.
  unfold reportData. apply Forall_map, Forall_forall. intros s _.
  unfold report_entry. cbn [presentDays absentDays totalDays percentage].
  set (history := getAttendanceHistory st (Student.id s) (Some dateRange)).
  assert (Hpct : getStudentAttendancePercentage st (Student.id s) (Some dateRange)
                 = if Z.of_nat (List.length history) =? 0 then Num.of_Z 0
                   else Num.mul
                          (Num.div
                             (Num.of_Z (count (fun h => has_status "present" h
                                                         || has_status "late" h) history))
                             (Num.of_Z (Z.of_nat (List.length history))))
                          (Num.of_Z 100)).
  { unfold getStudentAttendancePercentage. fold history.
    destruct (List.length history); reflexivity. }
  split; [apply count_nonneg|split; [apply count_nonneg|split; [|split]]].
  - apply (count_either_le _ _ history present_or_late_not_absent).
  - now rewrite Hpct.
  - intros H0. rewrite Hpct, H0. reflexivity.
Qed.

(** ** The pages of the PDF report *)






(** ** The dashboard *)

Lemma length_filter_sub {A} (q1 q2 : A -> bool) l :
  (forall x, q1 x = true -> q2 x = true) ->
  (List.length (filter q1 l) <= List.length (filter q2 l))%nat.
Proof.
  intros H. induction l as [|x l IH]; [reflexivity|].
  cbn [filter]. destruct (q1 x) eqn:E1.
  - rewrite (H x E1). cbn [List.length]. lia.
  - destruct (q2 x); cbn [List.length]; lia.
Qed.

Lemma count_filter_sub {A} (p q1 q2 : A -> bool) l :
  (forall x, q1 x = true -> q2 x = true) ->
  count p (filter q1 l) <= count p (filter q2 l).
Proof.
  intros H. unfold count. rewrite !filter_twice.
  apply Nat2Z.inj_le, length_filter_sub.
  intros x Hx. apply andb_true_iff in Hx as [H1 Hp].
  now rewrite (H x H1), Hp.
Qed.

(** X23. The dashboard lists one entry per class of the store, in store
    order, labelled name-section; the statistics of an entry are those of
    the class name alone, whatever the section; and no entry counts more
    students, present records or late records than the overall
    statistics. *)
Theorem dashboard_by_class (P : Platform) (env : Env) (st : MemStorage) :
  let overall := fst (get_dashboard_stats env st) in
  let byClass := snd (get_dashboard_stats env st) in
  map fst byClass
  = map (fun cls => Klass.name cls ++ "-" ++ Klass.section cls) (getClasses st)
  /\ map snd byClass
     = map (fun cls =>
              getAttendanceStats st (split_T_0 (toISOString (now env)))
                                 (Some (Klass.name cls)))
           (getClasses st)
  /\ Forall (fun entry =>
               totalStudents (snd entry) <= totalStudents overall
               /\ present (snd entry) <= present overall
               /\ late (snd entry) <= late overall)
            byClass.
Proof.
  cbv zeta. unfold get_dashboard_stats. cbn [fst snd].
  split; [now rewrite map_map|split; [now rewrite map_map|]].
  apply Forall_map, Forall_forall. intros cls _. cbn [snd].
  rewrite !getAttendanceStats_unfold. cbv zeta. cbn [totalStudents present late].
  assert (Hscope : forall a, record_in_scope st (split_T_0 (toISOString (now env)))
                               (Some (Klass.name cls)) a = true ->
                             record_in_scope st (split_T_0 (toISOString (now env)))
                               None a = true).
  { intros a. unfold record_in_scope. rewrite !andb_true_iff. tauto. }
  split; [|split].
  - apply Nat2Z.inj_le, length_filter_sub. reflexivity.
  - now apply count_filter_sub.
  - now apply count_filter_sub.
Qed.

(** ** The login route *)


(** The administrator the constructor seeds logs in. *)
Example login_of_seeded_admin :
  post_auth_login {| LoginBody.username := Some "admin";
                     LoginBody.password := Some "admin123";
                     LoginBody.role := Some "admin" |} example_store
  = (200, Login_user {| login_id := "u1"; login_username := "admin";
                        login_role := "admin";
                        login_name := "System Administrator";
                        login_email := Some "admin@aps.edu" |}).
Proof. reflexivity. Qed.

(** ** The client's confidence check and the server's *)

Lemma SFcompare_antisym x y :
  SFcompare y x = option_map CompOpp (SFcompare x y).
Proof.
  destruct x as [sx|sx| |sx mx ex], y as [sy|sy| |sy my ey];
    try reflexivity;
    try (destruct sx; reflexivity);
    try (destruct sy; reflexivity);
    try (destruct sx, sy; reflexivity).
  cbn [SFcompare option_map].
  destruct sx, sy; try reflexivity;
    rewrite (Z.compare_antisym ex ey);
    destruct (ex ?= ey)%Z; cbn [CompOpp]; try reflexivity;
    change (Pos.compare_cont Eq my mx) with (Pos.compare my mx);
    change (Pos.compare_cont Eq mx my) with (Pos.compare mx my);
    rewrite (Pos.compare_antisym mx my);
    destruct (mx ?= my)%positive; reflexivity.
Qed.

(** X25. On every confidence the face schema admits, the client's
    [isConfidenceValid] with its default threshold 80 and the server's test
    agree: the client accepts exactly the confidences the face route does
    not answer with [LowConfidenceError]. *)
Theorem client_and_server_threshold_agree
        (env : Env) (st : MemStorage) (sid : string) (c : Num.t) :
  confidence_in_schema c = true ->
  isConfidenceValid c (Num.of_Z 80) = negb (Num.ltb c (Num.of_Z 80))
  /\ (isConfidenceValid c (Num.of_Z 80) = true
      <-> fst (run (post_attendance_face env (face_body sid c)) st)
          <> LowConfidenceError).
Proof.
  intros Hc.
  assert (Hagree : isConfidenceValid c (Num.of_Z 80) = negb (Num.ltb c (Num.of_Z 80))).
  { unfold isConfidenceValid, Num.leb, Num.ltb, SFleb, SFltb.
    rewrite (SFcompare_antisym c (Num.of_Z 80)).
    unfold confidence_in_schema, Num.leb, SFleb in Hc.
    destruct c as [s|s| |s m e]; try discriminate Hc;
      destruct (SFcompare _ (Num.of_Z 80)) as [[| |]|] eqn:E; try reflexivity;
      discriminate E. }
  split; [exact Hagree|].
  rewrite Hagree.
  destruct (Num.ltb c (Num.of_Z 80)) eqn:E; cbn [negb].
  - rewrite (@face_below_threshold env st sid c Hc E). cbn [fst].
    split; [discriminate|intros H; now contradiction H].
  - split; [intros _|reflexivity].
    apply (@face_at_or_above_threshold env st sid c Hc E).
Qed.

Lemma client_and_server_threshold_agree_witness :
  confidence_in_schema (Num.of_Z 80) = true
  /\ isConfidenceValid (Num.of_Z 80) (Num.of_Z 80) = true
  /\ isConfidenceValid (Num.of_Z 79) (Num.of_Z 80) = false.
Proof.
  split; [reflexivity|split].
  - rewrite (proj1 (@client_and_server_threshold_agree (example_env "f1")
                      example_store "s3" (Num.of_Z 80) eq_refl)).
    reflexivity.
  - rewrite (proj1 (@client_and_server_threshold_agree (example_env "f1")
                      example_store "s3" (Num.of_Z 79) eq_refl)).
    reflexivity.
Defined.
